(** * Got Your Back: the incremental synchronisation core

    A shallow embedding of the parts of [src/gyb] that the synchronisation
    engine rests on, and the properties proved about them:

    - [google_api.py]: [_backoff], [callGAPI], [callGAPIpages];
    - [actions.py]: [labelIdsToLabels], [createLabel], [labelsToLabelIds],
      and the batch callbacks [refresh_message], [restored_message],
      [purged_message], [backup_chat], [backup_message];
    - [database.py]: [initializeDB], [get_db_settings], [check_db_settings],
      [getMessageIDs], [rebuildUIDTable], [message_is_backed_up];
    - [main.py]: the checks of the arguments and the part of [main] that
      opens the ledger, with the three project actions;
    - [utils.py]: [systemErrorExit], [bytes_to_larger].

    Conventions.

    - Python's module globals ([sqlcur] and [sqlconn], [allLabelIds],
      [backup_count], the two operator streams) are the fields of one
      explicit [world], which every function threads; a function that reads
      a global finds it bound, as the program that imports the package has
      to arrange.  Exceptions and [sys.exit] are the constructors of
      [result].
    - The remote store and the random generator are part of the world: the
      [k]-th [execute()] of the process is answered by [remote w k], the
      [k]-th draw comes from [entropy w k].
    - SQLite is modelled by the statements the code sends: a table is a list
      of rows in insertion order, a missing table raises
      [OperationalError], a violated [PRIMARY KEY] or [UNIQUE] index raises
      [IntegrityError], and a failing statement changes nothing.
    - A Python [float] is a rational, a [str] a string of bytes. *)

From Stdlib Require Import ZArith QArith String Ascii List Lia.
From stdpp Require Import base option list gmap strings pretty.

Local Open Scope string_scope.
Local Open Scope list_scope.
Local Open Scope Z_scope.

(** ** Python values the code manipulates *)

Module Py.

(** [str.lower] and [str.upper], on the ASCII letters. *)
Definition lower_ascii (c : ascii) : ascii :=
  let n := nat_of_ascii c in
  if ((65 <=? n)%nat && (n <=? 90)%nat)%bool then ascii_of_nat (n + 32) else c.

Definition upper_ascii (c : ascii) : ascii :=
  let n := nat_of_ascii c in
  if ((97 <=? n)%nat && (n <=? 122)%nat)%bool then ascii_of_nat (n - 32) else c.

Fixpoint lower (s : string) : string :=
  match s with
  | EmptyString => EmptyString
  | String c r => String (lower_ascii c) (lower r)
  end.

Fixpoint upper (s : string) : string :=
  match s with
  | EmptyString => EmptyString
  | String c r => String (upper_ascii c) (upper r)
  end.

(** [x in l] for a list of strings. *)
Definition mem (x : string) (l : list string) : bool :=
  existsb (String.eqb x) l.

(** [a < b] and [a > b] on [str]: lexicographic order on the characters. *)
Definition str_lt (a b : string) : bool := String.ltb a b.
Definition str_gt (a b : string) : bool := String.ltb b a.

(** The line feed of the operator messages. *)
Definition nl : string := String (ascii_of_nat 10) EmptyString.
Definition cr : string := String (ascii_of_nat 13) EmptyString.
Definition dq : string := String (ascii_of_nat 34) EmptyString.

(** [s.startswith(p)]. *)
Fixpoint startswith (p s : string) : bool :=
  match p, s with
  | EmptyString, _ => true
  | String a p', String b s' => (Ascii.eqb a b && startswith p' s')%bool
  | String _ _, EmptyString => false
  end.

(** [s.endswith('/')]. *)
Fixpoint ends_with_sep (s : string) : bool :=
  match s with
  | EmptyString => false
  | String c EmptyString => Ascii.eqb c "/"%char
  | String _ r => ends_with_sep r
  end.

(** [s.replace(old, new)] for a non-empty [old]: the occurrences are taken
    left to right and do not overlap.  [skip] counts the characters of an
    occurrence still to be dropped. *)
Fixpoint replace_from (skip : nat) (old new s : string) : string :=
  match s with
  | EmptyString => EmptyString
  | String c r =>
      match skip with
      | S k => replace_from k old new r
      | O =>
          if startswith old s
          then new +:+ replace_from (String.length old - 1) old new r
          else String c (replace_from O old new r)
      end
  end.

Definition replace (old new s : string) : string := replace_from O old new s.

(** [os.path.join(a, b)] of [posixpath]. *)
Definition path_join (a b : string) : string :=
  if startswith "/" b then b
  else if (String.eqb a "" || ends_with_sep a)%bool then a +:+ b
  else a +:+ "/" +:+ b.

(** [int(q)] on a rational: truncation towards zero. *)
Definition int_of_Q (q : Q) : Z := Z.quot (Qnum q) (Zpos (Qden q)).

End Py.

(** ** Exceptions, exits and the state monad of the program *)

Inductive exn : Type :=
  | HttpError (code : Z) (reason message : string)
  | KeyError (key : string)
  | TypeError (what : string)
  | IntegrityError (what : string)
  | OperationalError (what : string)
  | OtherError (what : string).

(** How a call ends: it returns, an exception leaves it, or [sys.exit]
    stops the process.  The world reached is kept in each case. *)
Inductive result (W A : Type) : Type :=
  | Ok (a : A) (w : W)
  | Raise (e : exn) (w : W)
  | Exit (code : Z) (w : W).

Arguments Ok {W A} a w.
Arguments Raise {W A} e w.
Arguments Exit {W A} code w.

Definition world_of {W A} (r : result W A) : W :=
  match r with
  | Ok _ w | Raise _ w | Exit _ w => w
  end.

Definition returned {W A} (r : result W A) : option A :=
  match r with
  | Ok a _ => Some a
  | _ => None
  end.

Definition M (W A : Type) : Type := W -> result W A.

Definition ret {W A} (a : A) : M W A := fun w => Ok a w.

Definition bind {W A B} (m : M W A) (k : A -> M W B) : M W B :=
  fun w =>
    match m w with
    | Ok a w' => k a w'
    | Raise e w' => Raise e w'
    | Exit c w' => Exit c w'
    end.

Definition raise {W A} (e : exn) : M W A := fun w => Raise e w.
Definition sys_exit {W A} (code : Z) : M W A := fun w => Exit code w.

(** [try: m except <handled>: h] *)
Definition try_except {W A} (m : M W A) (h : exn -> option (M W A)) : M W A :=
  fun w =>
    match m w with
    | Raise e w' =>
        match h e with
        | Some k => k w'
        | None => Raise e w'
        end
    | r => r
    end.

Declare Scope py_scope.
Delimit Scope py_scope with py.
Notation "x <- m ;; k" := (bind m (fun x => k))
  (at level 100, m at next level, right associativity) : py_scope.
Notation "m ;;; k" := (bind m (fun _ => k))
  (at level 100, right associativity) : py_scope.

(** [for x in l: body x] *)
Fixpoint for_each {W A} (l : list A) (body : A -> M W unit) : M W unit :=
  match l with
  | [] => ret tt
  | x :: r => (body x ;;; for_each r body)%py
  end.

(** ** The remote message store, as [callGAPI] sees it *)

(** One entry of a listing: a JSON object with string fields ([id],
    [threadId], ...). *)
Abbreviation item := (gmap string string).

(** An entry of [labels.list], as [fields='labels(id,name)'] returns it. *)
Record label_entry : Type := { l_id : string; l_name : string }.

(** A response body: a JSON object, seen through the keys the code reads.
    [r_items] is the key named by [items], [r_nextPageToken] the key named by
    [nextPageToken]; [r_other] tells whether any further key is present. *)
Record response : Type := {
  r_items : option (list item);
  r_nextPageToken : option string;
  r_labels : option (list label_entry);
  r_id : option string;
  r_other : bool
}.

(** [not this_page] for a response or [None]: the empty object is falsy. *)
Definition falsy (r : option response) : bool :=
  match r with
  | None => true
  | Some r =>
      match r_items r, r_nextPageToken r, r_labels r, r_id r, r_other r with
      | None, None, None, None, false => true
      | _, _, _, _, _ => false
      end
  end.

(** A request: the method name and the keyword arguments it is called with
    ([None] is a keyword passed as [None]); the module's [extra_args] are
    the same for every request and are left out. *)
Record request : Type := {
  function : string;
  kwargs : list (string * option string)
}.

(** What one [execute()] does. *)
Inductive attempt : Type :=
  | Returns (r : response)
  | HttpFails (code : Z) (reason message : string)
  | RefreshFails (e : string)
  | CertificateValidationUnsupported
  | NetworkFails (e : string)
  | OtherFails (e : string).

(** What the operator and the clock see. *)
Inductive event : Type :=
  | Execute (req : request)
  | Stderr (text : string)
  | Stdout (text : string)
  | Sleep (seconds : Q).

(** ** The ledger *)

(** The tables of [msg-db.sqlite].  A table that was never created is
    [None].  Column affinities are not modelled: a message number is the
    string the remote store gave. *)
Record ledger : Type := {
  settings : option (list (string * string));
  messages : option (list (string * string * Q));
  labels : option (list (string * string));
  labelidx : bool;
  uids : option (list (string * string));
  restored_messages : option (list string);
  restored_key : bool
}.

(** A connection: what its cursor sees, and what was last committed. *)
Record connection : Type := { cur : ledger; committed : ledger }.

(** ** The backup folder *)

(** What a file of the backup folder holds: the bytes of a message, or the
    document of a chat thread (its id, thread id, timestamp, text and
    labels) as [json.dump] wrote it. *)
Inductive file_content : Type :=
  | RawMessage (bytes : string)
  | ChatDocument (id : string) (threadId : option string) (timestamp : Z)
      (content : string) (labels : list string).

(** ** The world *)

Record world : Type := {
  remote : nat -> request -> attempt;
  entropy : nat -> Z;
  attempts : nat;
  draws : nat;
  trace : list event;
  allLabelIds : gmap string string;
  sqlconn : connection;
  files : gmap string file_content;
  backup_count : nat
}.

Definition py := M world.

Definition set_attempts (f : nat -> nat) (w : world) : world :=
  {| remote := remote w; entropy := entropy w; attempts := f (attempts w);
     draws := draws w; trace := trace w; allLabelIds := allLabelIds w;
     sqlconn := sqlconn w; files := files w; backup_count := backup_count w |}.

Definition set_draws (f : nat -> nat) (w : world) : world :=
  {| remote := remote w; entropy := entropy w; attempts := attempts w;
     draws := f (draws w); trace := trace w; allLabelIds := allLabelIds w;
     sqlconn := sqlconn w; files := files w; backup_count := backup_count w |}.

Definition set_trace (f : list event -> list event) (w : world) : world :=
  {| remote := remote w; entropy := entropy w; attempts := attempts w;
     draws := draws w; trace := f (trace w); allLabelIds := allLabelIds w;
     sqlconn := sqlconn w; files := files w; backup_count := backup_count w |}.

Definition set_allLabelIds (f : gmap string string -> gmap string string)
    (w : world) : world :=
  {| remote := remote w; entropy := entropy w; attempts := attempts w;
     draws := draws w; trace := trace w; allLabelIds := f (allLabelIds w);
     sqlconn := sqlconn w; files := files w; backup_count := backup_count w |}.

Definition set_sqlconn (f : connection -> connection) (w : world) : world :=
  {| remote := remote w; entropy := entropy w; attempts := attempts w;
     draws := draws w; trace := trace w; allLabelIds := allLabelIds w;
     sqlconn := f (sqlconn w); files := files w; backup_count := backup_count w |}.

Definition set_files
    (f : gmap string file_content -> gmap string file_content)
    (w : world) : world :=
  {| remote := remote w; entropy := entropy w; attempts := attempts w;
     draws := draws w; trace := trace w; allLabelIds := allLabelIds w;
     sqlconn := sqlconn w; files := f (files w); backup_count := backup_count w |}.

Definition set_backup_count (f : nat -> nat) (w : world) : world :=
  {| remote := remote w; entropy := entropy w; attempts := attempts w;
     draws := draws w; trace := trace w; allLabelIds := allLabelIds w;
     sqlconn := sqlconn w; files := files w; backup_count := f (backup_count w) |}.

Definition emit (e : event) : py unit :=
  fun w => Ok tt (set_trace (fun t => (t ++ [e])) w).

Definition stderr_write (text : string) : py unit := emit (Stderr text).
Definition print (text : string) : py unit := emit (Stdout (text +:+ Py.nl)).

(** [utils.systemErrorExit] *)
Definition systemErrorExit {A} (code : Z) (error_text : string) : py A :=
  (stderr_write (Py.nl +:+ "ERROR: " +:+ error_text +:+ Py.nl) ;;; sys_exit code)%py.

(** ** [google_api.py]: the resilient call executor *)

(** [random.randint(a, b)]: an integer of [a..b], taken from the world's
    entropy. *)
Definition randint (a b : Z) : py Z :=
  fun w => Ok (a + entropy w (draws w) mod (b - a + 1)) (set_draws S w).

(** [time.sleep] *)
Definition sleep (seconds : Q) : py unit := emit (Sleep seconds).

(** [(2 ** n) if (2 ** n) < 60 else 60]: the delay before the jitter is
    added. *)
Definition wait_on_fail (n : Z) : Z :=
  if 2 ^ n <? 60 then 2 ^ n else 60.

(** [float(k) / 1000] *)
Definition randomness (k : Z) : Q := inject_Z k / 1000.

Definition _backoff (n retries : Z) (reason : string) : py unit :=
  (k <- randint 1 1000 ;;
   let wait := (inject_Z (wait_on_fail n) + randomness k)%Q in
   (if 3 <? n
    then stderr_write (Py.nl +:+ "Temporary error " +:+ reason +:+ ". Backing off "
                         +:+ pretty (Py.int_of_Q wait) +:+ " seconds...")
    else ret tt) ;;;
   sleep wait ;;;
   if 3 <? n
   then stderr_write ("attempt " +:+ pretty (retries - n) +:+ "/" +:+ pretty retries +:+ Py.nl)
   else ret tt)%py.

(** The [execute()] of the method built from the parameters: the next
    answer of the remote store. *)
Definition execute (req : request) : py attempt :=
  fun w =>
    Ok (remote w (attempts w) req)
       (set_attempts S (set_trace (fun t => (t ++ [Execute req])) w)).

Definition retries : Z := 10.

Definition builtin_retry_reasons : list string :=
  ["rateLimitExceeded"; "userRateLimitExceeded"; "backendError"; "internalError"].

Definition ssl_message : string :=
  Py.nl +:+ "ERROR: You don't have the Python ssl module installed so we can't"
  +:+ Py.nl +:+ "verify SSL Certificates. You can fix this by installing the"
  +:+ Py.nl +:+ "Python ssl module or you can live on the edge and turn off"
  +:+ Py.nl +:+ "SSL certificate verification by setting:" +:+ Py.nl +:+ Py.nl
  +:+ "export PYTHONHTTPSVERIFY=0" +:+ Py.nl +:+ Py.nl +:+ "Then run gyb again.".

(** The body of [for n in range(1, retries+1)], over the values [n] still to
    come.  Running off the end of the loop returns [None]. *)
Fixpoint callGAPI_for (ns : list Z) (req : request) (soft_errors : bool)
    (throw_reasons retry_reasons : list string) : py (option response) :=
  match ns with
  | [] => ret None
  | n :: rest =>
      (a <- execute req ;;
       match a with
       | Returns r => ret (Some r)
       | HttpFails code reason message =>
           if Py.mem reason throw_reasons then raise (HttpError code reason message)
           else if (negb (n =? retries)
                    && Py.mem reason (builtin_retry_reasons ++ retry_reasons))%bool
           then (_backoff n retries reason ;;;
                 callGAPI_for rest req soft_errors throw_reasons retry_reasons)
           else if soft_errors
           then (stderr_write ("Soft error: " +:+ reason +:+ " - " +:+ message +:+ Py.nl) ;;;
                 ret None)
           else (stderr_write ("Error: " +:+ reason +:+ " - " +:+ message +:+ Py.nl) ;;;
                 sys_exit 5)
       | RefreshFails e =>
           (stderr_write ("Error: Authentication Token Error - " +:+ e) ;;;
            sys_exit 403)
       | CertificateValidationUnsupported =>
           (print ssl_message ;;; sys_exit 8)
       | NetworkFails e =>
           if negb (n =? retries)
           then (_backoff n retries e ;;;
                 callGAPI_for rest req soft_errors throw_reasons retry_reasons)
           else systemErrorExit 4 e
       | OtherFails e => raise (OtherError e)
       end)%py
  end.

(** [range(1, retries+1)] *)
Definition attempt_numbers : list Z := seqZ 1 retries.

Definition callGAPI (req : request) (soft_errors : bool)
    (throw_reasons retry_reasons : list string) : py (option response) :=
  callGAPI_for attempt_numbers req soft_errors throw_reasons retry_reasons.

(** ** [google_api.py]: the paginator *)

(** [{items: []}], which replaces a falsy page. *)
Definition empty_page : response :=
  {| r_items := Some []; r_nextPageToken := None; r_labels := None;
     r_id := None; r_other := false |}.

(** A string or [None] used as a condition. *)
Definition truthy (s : option string) : bool :=
  match s with
  | Some s => negb (String.eqb s "")
  | None => false
  end.

Definition blank_first_last (show_message : string) : string :=
  Py.replace "%%last_item%%" "" (Py.replace "%%first_item%%" "" show_message).

(** The [try] that fills in the first and the last item of the page;
    [IndexError] and [KeyError] blank both. *)
Definition fill_first_last (message_attribute : string) (this_page : response)
    (show_message : string) : string :=
  match r_items this_page with
  | None => blank_first_last show_message
  | Some l =>
      match head l with
      | None => blank_first_last show_message
      | Some first =>
          match first !! message_attribute with
          | None => blank_first_last show_message
          | Some v0 =>
              let shown := Py.replace "%%first_item%%" v0 show_message in
              match last l with
              | None => blank_first_last shown
              | Some final =>
                  match final !! message_attribute with
                  | None => blank_first_last shown
                  | Some v1 => Py.replace "%%last_item%%" v1 shown
                  end
              end
          end
      end
  end.

(** The status line of one page. *)
Definition show_page (page_message message_attribute : option string)
    (this_page : response) (page_items total_items : nat) : py unit :=
  match page_message with
  | Some template =>
      if truthy page_message then
        let m1 := Py.replace "%%num_items%%" (pretty page_items) template in
        let m2 := Py.replace "%%total_items%%" (pretty total_items) m1 in
        let m3 := match message_attribute with
                  | Some attr =>
                      if truthy message_attribute
                      then fill_first_last attr this_page m2 else m2
                  | None => m2
                  end in
        stderr_write (Py.cr +:+ m3)
      else ret tt
  | None => ret tt
  end.

(** The arguments [callGAPIpages] hands on unchanged. *)
Record page_call : Type := {
  pc_function : string;
  pc_page_message : option string;
  pc_message_attribute : option string;
  pc_soft_errors : bool;
  pc_throw_reasons : list string;
  pc_retry_reasons : list string;
  pc_kwargs : list (string * option string)
}.

(** The request for the page after [pageToken]. *)
Definition page_request (c : page_call) (pageToken : option string) : request :=
  {| function := pc_function c;
     kwargs := ("pageToken", pageToken) :: pc_kwargs c |}.

(** [while True:] of [callGAPIpages]; [None] when [fuel] iterations were
    not enough to reach the [return]. *)
Fixpoint callGAPIpages_while (fuel : nat) (c : page_call)
    (pageToken : option string) (all_pages : list item) (total_items : nat)
    (w : world) : option (result world (list item)) :=
  match fuel with
  | O => None
  | S fuel' =>
      match callGAPI (page_request c pageToken)
                     (pc_soft_errors c) (pc_throw_reasons c) (pc_retry_reasons c) w with
      | Raise e w1 => Some (Raise e w1)
      | Exit code w1 => Some (Exit code w1)
      | Ok answer w1 =>
          let this_page :=
            match answer with
            | Some r => if falsy answer then empty_page else r
            | None => empty_page
            end in
          let page_items :=
            match r_items this_page with
            | Some l => length l
            | None => O
            end in
          let total_items := (total_items + page_items)%nat in
          match show_page (pc_page_message c) (pc_message_attribute c)
                          this_page page_items total_items w1 with
          | Raise e w2 => Some (Raise e w2)
          | Exit code w2 => Some (Exit code w2)
          | Ok _ w2 =>
              let all_pages :=
                match r_items this_page with
                | Some l => (all_pages ++ l)
                | None => all_pages
                end in
              match r_nextPageToken this_page with
              | Some token =>
                  callGAPIpages_while fuel' c (Some token) all_pages total_items w2
              | None =>
                  Some (bind (if truthy (pc_page_message c)
                              then stderr_write Py.nl else ret tt)
                             (fun _ => ret all_pages) w2)
              end
          end
      end
  end.

Definition callGAPIpages (fuel : nat) (c : page_call) (w : world)
    : option (result world (list item)) :=
  callGAPIpages_while fuel c None [] O w.

(** ** [actions.py]: the label directory *)

(** The vocabularies of [gyb/__init__.py]. *)
Definition reserved_labels : list string :=
  ["inbox"; "spam"; "trash"; "unread"; "starred"; "important";
   "sent"; "draft"; "chat"; "chats"; "migrated"; "todo"; "todos"; "buzz";
   "bin"; "allmail"; "drafts"; "archive"; "archived"; "muted"].

Definition system_labels : list string :=
  ["INBOX"; "SPAM"; "TRASH"; "UNREAD"; "STARRED"; "IMPORTANT";
   "SENT"; "DRAFT"; "CATEGORY_PERSONAL"; "CATEGORY_SOCIAL";
   "CATEGORY_PROMOTIONS"; "CATEGORY_UPDATES"; "CATEGORY_FORUMS"].

Definition labels_list_request : request :=
  {| function := "list";
     kwargs := [("userId", Some "me"); ("fields", Some "labels(id,name)")] |}.

Definition labels_create_request (label_name : string) : request :=
  {| function := "create";
     kwargs := [("userId", Some "me"); ("body", Some label_name)] |}.

(** [results['labels']] *)
Definition get_labels (results : option response) : py (list label_entry) :=
  match results with
  | None => raise (TypeError "'NoneType' object is not subscriptable")
  | Some r =>
      match r_labels r with
      | Some l => ret l
      | None => raise (KeyError "labels")
      end
  end.

(** [results['id']] *)
Definition get_id (results : option response) : py string :=
  match results with
  | None => raise (TypeError "'NoneType' object is not subscriptable")
  | Some r =>
      match r_id r with
      | Some i => ret i
      | None => raise (KeyError "id")
      end
  end.

(** The [for] of the 409 branch: the first label of that name, or nothing. *)
Definition find_label (label_name : string) (l : list label_entry)
    : option string :=
  l_id <$> List.find
    (fun a => String.eqb (Py.lower (l_name a)) (Py.lower label_name)) l.

Definition createLabel (label_name : string) : py string :=
  try_except
    (results <- callGAPI (labels_create_request label_name) false [] [] ;;
     get_id results)%py
    (fun e =>
       match e with
       | HttpError code reason message =>
           Some (if code =? 409
                 then (results <- callGAPI labels_list_request false [] [] ;;
                       l <- get_labels results ;;
                       match find_label label_name l with
                       | Some i => ret i
                       | None => raise e
                       end)%py
                 else raise e)
       | _ => None
       end).

Definition cache_is_empty (m : gmap string string) : bool :=
  bool_decide (m = ∅).

(** One turn of [for label in labels]; the ids found so far are threaded
    through. *)
Definition resolve_label (labelIds : list string) (label : string)
    : py (list string) :=
  fun w =>
    match allLabelIds w !! label with
    | Some i => Ok (labelIds ++ [i]) w
    | None =>
        if Py.mem label system_labels then Ok (labelIds ++ [label]) w
        else if Py.mem (Py.upper label) system_labels
        then Ok (labelIds ++ [Py.upper label]) w
        else if Py.mem (Py.lower label) reserved_labels
        then
          if String.eqb (Py.lower label) "chat" then Ok (labelIds ++ ["CHAT"]) w
          else if String.eqb (Py.lower label) "chats" then Ok (labelIds ++ ["CHAT"]) w
          else if Py.mem (Py.lower label) ["draft"; "drafts"]
          then Ok (labelIds ++ ["DRAFT"]) w
          else Ok (labelIds ++ [Py.upper label]) w
        else
          (print ("  Need to create label " +:+ Py.dq +:+ label +:+ Py.dq +:+ "...") ;;;
           new_label_id <- createLabel label ;;
           fun w' => Ok (labelIds ++ [new_label_id])
                        (set_allLabelIds (insert label new_label_id) w'))%py w
    end.

Fixpoint resolve_labels (labelIds : list string) (labels : list string)
    : py (list string) :=
  match labels with
  | [] => ret labelIds
  | label :: rest =>
      (labelIds' <- resolve_label labelIds label ;;
       resolve_labels labelIds' rest)%py
  end.

(** The lazy load of the name-to-id cache. *)
Definition load_allLabelIds : py unit :=
  fun w =>
    if cache_is_empty (allLabelIds w)
    then
      (results <- callGAPI labels_list_request false [] [] ;;
       l <- get_labels results ;;
       for_each l (fun a w' =>
         Ok tt (set_allLabelIds (insert (l_name a) (l_id a)) w')))%py w
    else Ok tt w.

Definition labelsToLabelIds (labels : list string) : py (list string) :=
  (load_allLabelIds ;;; resolve_labels [] labels)%py.

(** ** [database.py]: the statements the code sends to SQLite *)

Module Sql.

Definition with_settings (v : option (list (string * string))) (l : ledger) : ledger :=
  {| settings := v; messages := messages l; labels := labels l;
     labelidx := labelidx l; uids := uids l;
     restored_messages := restored_messages l; restored_key := restored_key l |}.

Definition with_messages (v : option (list (string * string * Q))) (l : ledger) : ledger :=
  {| settings := settings l; messages := v; labels := labels l;
     labelidx := labelidx l; uids := uids l;
     restored_messages := restored_messages l; restored_key := restored_key l |}.

Definition with_labels (v : option (list (string * string))) (l : ledger) : ledger :=
  {| settings := settings l; messages := messages l; labels := v;
     labelidx := labelidx l; uids := uids l;
     restored_messages := restored_messages l; restored_key := restored_key l |}.

Definition with_labelidx (v : bool) (l : ledger) : ledger :=
  {| settings := settings l; messages := messages l; labels := labels l;
     labelidx := v; uids := uids l;
     restored_messages := restored_messages l; restored_key := restored_key l |}.

Definition with_uids (v : option (list (string * string))) (l : ledger) : ledger :=
  {| settings := settings l; messages := messages l; labels := labels l;
     labelidx := labelidx l; uids := v;
     restored_messages := restored_messages l; restored_key := restored_key l |}.

Definition with_restored (v : option (list string)) (key : bool) (l : ledger) : ledger :=
  {| settings := settings l; messages := messages l; labels := labels l;
     labelidx := labelidx l; uids := uids l;
     restored_messages := v; restored_key := key |}.

(** A database file that was just created. *)
Definition empty : ledger :=
  {| settings := None; messages := None; labels := None; labelidx := false;
     uids := None; restored_messages := None; restored_key := false |}.

Definition no_such_table (name : string) : exn :=
  OperationalError ("no such table: " +:+ name).

Definition already_exists (name : string) : exn :=
  OperationalError ("table " +:+ name +:+ " already exists").

Definition unique_failed (what : string) : exn :=
  IntegrityError ("UNIQUE constraint failed: " +:+ what).

(** The number and the file name of a row of [messages]. *)
Definition message_num (row : string * string * Q) : string := row.1.1.
Definition message_filename (row : string * string * Q) : string := row.1.2.

(** [CREATE TABLE settings (name TEXT PRIMARY KEY, value TEXT)] *)
Definition create_settings (l : ledger) : exn + ledger :=
  match settings l with
  | Some _ => inl (already_exists "settings")
  | None => inr (with_settings (Some []) l)
  end.

(** [INSERT INTO settings (name, value) VALUES (?, ?)] *)
Definition insert_setting (name value : string) (l : ledger) : exn + ledger :=
  match settings l with
  | None => inl (no_such_table "settings")
  | Some rows =>
      if decide (name ∈ rows.*1) then inl (unique_failed "settings.name")
      else inr (with_settings (Some (rows ++ [(name, value)])) l)
  end.

(** [CREATE TABLE messages(message_num INTEGER PRIMARY KEY,
    message_filename TEXT, message_internaldate TIMESTAMP)] *)
Definition create_messages (l : ledger) : exn + ledger :=
  match messages l with
  | Some _ => inl (already_exists "messages")
  | None => inr (with_messages (Some []) l)
  end.

(** [INSERT INTO messages (message_num, message_filename,
    message_internaldate) VALUES (?, ?, ?)] *)
Definition insert_message (num filename : string) (date : Q) (l : ledger)
    : exn + ledger :=
  match messages l with
  | None => inl (no_such_table "messages")
  | Some rows =>
      if decide (num ∈ message_num <$> rows)
      then inl (unique_failed "messages.message_num")
      else inr (with_messages (Some (rows ++ [(num, filename, date)])) l)
  end.

(** [DELETE FROM messages WHERE message_num = ?] *)
Definition delete_message (num : string) (l : ledger) : exn + ledger :=
  match messages l with
  | None => inl (no_such_table "messages")
  | Some rows =>
      inr (with_messages (Some (filter (fun r => message_num r ≠ num) rows)) l)
  end.

(** [CREATE TABLE labels (message_num INTEGER, label TEXT)] *)
Definition create_labels (l : ledger) : exn + ledger :=
  match labels l with
  | Some _ => inl (already_exists "labels")
  | None => inr (with_labels (Some []) l)
  end.

(** [CREATE UNIQUE INDEX labelidx ON labels (message_num, label)] *)
Definition create_labelidx (l : ledger) : exn + ledger :=
  match labels l with
  | None => inl (no_such_table "main.labels")
  | Some rows =>
      if labelidx l then inl (OperationalError "index labelidx already exists")
      else if decide (NoDup rows) then inr (with_labelidx true l)
      else inl (unique_failed "labels.message_num, labels.label")
  end.

(** [INSERT INTO labels (message_num, label) VALUES (?, ?)] *)
Definition insert_label (num label : string) (l : ledger) : exn + ledger :=
  match labels l with
  | None => inl (no_such_table "labels")
  | Some rows =>
      if labelidx l && bool_decide ((num, label) ∈ rows)
      then inl (unique_failed "labels.message_num, labels.label")
      else inr (with_labels (Some (rows ++ [(num, label)])) l)
  end.

(** [DELETE FROM labels WHERE message_num = ?] *)
Definition delete_labels (num : string) (l : ledger) : exn + ledger :=
  match labels l with
  | None => inl (no_such_table "labels")
  | Some rows => inr (with_labels (Some (filter (fun r => r.1 ≠ num) rows)) l)
  end.

(** [CREATE TABLE uids (message_num INTEGER, uid TEXT PRIMARY KEY)] *)
Definition create_uids (l : ledger) : exn + ledger :=
  match uids l with
  | Some _ => inl (already_exists "uids")
  | None => inr (with_uids (Some []) l)
  end.

(** [DELETE FROM uids WHERE message_num = ?] *)
Definition delete_uids (num : string) (l : ledger) : exn + ledger :=
  match uids l with
  | None => inl (no_such_table "uids")
  | Some rows => inr (with_uids (Some (filter (fun r => r.1 ≠ num) rows)) l)
  end.

(** [DELETE FROM uids] *)
Definition clear_uids (l : ledger) : exn + ledger :=
  match uids l with
  | None => inl (no_such_table "uids")
  | Some _ => inr (with_uids (Some []) l)
  end.

(** [INSERT INTO uids (message_num, uid) SELECT message_num, message_num
    FROM messages]: one statement, which fails as a whole. *)
Definition fill_uids (l : ledger) : exn + ledger :=
  match uids l, messages l with
  | None, _ => inl (no_such_table "uids")
  | _, None => inl (no_such_table "messages")
  | Some rows, Some msgs =>
      let new := (fun m => (message_num m, message_num m)) <$> msgs in
      if decide (NoDup ((rows ++ new).*2)) then inr (with_uids (Some (rows ++ new)) l)
      else inl (unique_failed "uids.uid")
  end.

(** Modelled from the spec: the declaration of [restored_messages], which no
    statement of the source creates.  The spec lists the table as
    [restored_messages(message_num)] and gives a RestoredMarker its message
    as unique key. *)
Definition create_restored_messages (l : ledger) : exn + ledger :=
  match restored_messages l with
  | Some _ => inl (already_exists "restored_messages")
  | None => inr (with_restored (Some []) true l)
  end.

(** [INSERT INTO restored_messages (message_num) VALUES (?)] *)
Definition insert_restored (num : string) (l : ledger) : exn + ledger :=
  match restored_messages l with
  | None => inl (no_such_table "restored_messages")
  | Some rows =>
      if restored_key l && bool_decide (num ∈ rows)
      then inl (unique_failed "restored_messages.message_num")
      else inr (with_restored (Some (rows ++ [num])) (restored_key l) l)
  end.

(** [SELECT name, value FROM settings] *)
Definition select_settings (l : ledger) : exn + list (string * string) :=
  match settings l with
  | None => inl (no_such_table "settings")
  | Some rows => inr rows
  end.

(** [SELECT message_num, message_filename FROM messages] *)
Definition select_messages (l : ledger) : exn + list (string * string) :=
  match messages l with
  | None => inl (no_such_table "messages")
  | Some rows => inr ((fun r => (message_num r, message_filename r)) <$> rows)
  end.

(** [SELECT message_filename FROM messages WHERE message_num = ? LIMIT 1] *)
Definition select_filename (num : string) (l : ledger) : exn + list string :=
  match messages l with
  | None => inl (no_such_table "messages")
  | Some rows =>
      inr (take 1 (message_filename <$> filter (fun r => message_num r = num) rows))
  end.

End Sql.

(** [sqlcur.execute] of a statement that changes the ledger. *)
Definition sql_execute (stmt : ledger -> exn + ledger) : py unit :=
  fun w =>
    match stmt (cur (sqlconn w)) with
    | inr l => Ok tt (set_sqlconn (fun c => {| cur := l; committed := committed c |}) w)
    | inl e => Raise e w
    end.

(** [sqlcur.execute] of a [SELECT], followed by [fetchall]. *)
Definition sql_query {A} (stmt : ledger -> exn + A) : py A :=
  fun w =>
    match stmt (cur (sqlconn w)) with
    | inr a => Ok a w
    | inl e => Raise e w
    end.

(** [sqlconn.commit()] *)
Definition commit : py unit :=
  fun w => Ok tt (set_sqlconn (fun c => {| cur := cur c; committed := cur c |}) w).

(** [os.path.isfile] *)
Definition isfile (path : string) : py bool :=
  fun w => Ok (bool_decide (is_Some (files w !! path))) w.

(** [with open(path, ...) as f:] followed by the write of [data]. *)
Definition write_file (path : string) (data : file_content) : py unit :=
  fun w => Ok tt (set_files (insert path data) w).

(** ** [database.py] *)

Definition __version__ : string := "1.83".
Definition __db_schema_version__ : string := "6".
Definition __db_schema_min_version__ : string := "6".

Definition initializeDB (email : string) : py unit :=
  (sql_execute Sql.create_settings ;;;
   sql_execute (Sql.insert_setting "email_address" email) ;;;
   sql_execute (Sql.insert_setting "db_version" __db_schema_version__) ;;;
   sql_execute Sql.create_messages ;;;
   sql_execute Sql.create_labels ;;;
   sql_execute Sql.create_uids ;;;
   sql_execute Sql.create_labelidx ;;;
   commit)%py.

(** [dict(rows)]: a later row of the same name replaces an earlier one. *)
Definition dict_of_rows (rows : list (string * string)) : gmap string string :=
  foldl (fun m kv => <[kv.1 := kv.2]> m) ∅ rows.

Definition get_db_settings : py (gmap string string) :=
  (rows <- sql_query Sql.select_settings ;; ret (dict_of_rows rows))%py.

(** [d[key]] *)
Definition getitem (d : gmap string string) (key : string) : py string :=
  match d !! key with
  | Some v => ret v
  | None => raise (KeyError key)
  end.

Definition restore_actions : list string :=
  ["restore"; "restore-group"; "restore-mbox"].

(** The condition of the first [if] of [check_db_settings]. *)
Definition version_refused (db_version : string) : bool :=
  Py.str_lt db_version __db_schema_min_version__
  || Py.str_gt db_version __db_schema_version__.

Definition check_db_settings (db_settings : gmap string string)
    (action user_email_address : string) : py unit :=
  (db_version <- getitem db_settings "db_version" ;;
   (if version_refused db_version
    then
      (print ("\n\nSorry, this backup folder was created with version "
              +:+ db_version +:+ " of the database schema while GYB "
              +:+ __version__ +:+ " requires version "
              +:+ __db_schema_min_version__ +:+ " - " +:+ __db_schema_version__
              +:+ " for restores") ;;;
       sys_exit 4)
    else ret tt) ;;;
   if negb (Py.mem action restore_actions)
   then
     (email_address <- getitem db_settings "email_address" ;;
      if negb (String.eqb (Py.lower user_email_address) (Py.lower email_address))
      then
        (print ("\n\nSorry, this backup folder should only be used with the "
                +:+ email_address
                +:+ " account that it was created with for incremental backups."
                +:+ " You specified the " +:+ user_email_address +:+ " account") ;;;
         sys_exit 5)
      else ret tt)
   else ret tt)%py.

(** The three [DELETE]s that forget a message. *)
Definition forget_message (num : string) : py unit :=
  (sql_execute (Sql.delete_message num) ;;;
   sql_execute (Sql.delete_labels num) ;;;
   sql_execute (Sql.delete_uids num))%py.

Definition getMessageIDs (backup_folder : string) : py unit :=
  (results <- sql_query Sql.select_messages ;;
   for_each results (fun x =>
     present <- isfile (Py.path_join backup_folder x.2) ;;
     if negb present then forget_message x.1 else ret tt) ;;;
   commit)%py.

Definition rebuildUIDTable : py unit :=
  (sql_execute Sql.clear_uids ;;;
   sql_execute Sql.fill_uids ;;;
   commit)%py.

Definition message_is_backed_up (message_num backup_folder : string) : py bool :=
  (sqlresults <- sql_query (Sql.select_filename message_num) ;;
   match sqlresults with
   | [] => ret false
   | filename :: _ =>
       present <- isfile (Py.path_join backup_folder filename) ;;
       if present then ret true
       else
         (print ("WARNING! File " +:+ Py.path_join backup_folder filename
                 +:+ " was deleted manually, removing entry from the database.") ;;;
          forget_message message_num ;;;
          commit ;;;
          ret false)
   end)%py.

(** ** [actions.py]: the outcome callbacks of a batch *)

(** A message resource, with the keys the callbacks read: [id],
    [labelIds], [threadId], [internalDate] as the integer it spells, [raw]
    as the bytes it encodes, and the parts of [payload], each with the text
    its body data decodes to ([None] for a part without data, or with data
    that does not decode). *)
Record message : Type := {
  msg_id : string;
  msg_labelIds : option (list string);
  msg_threadId : option string;
  msg_internalDate : Z;
  msg_raw : string;
  msg_parts : list (option string)
}.

(** [except sqlite3.IntegrityError: pass] *)
Definition pass_IntegrityError (e : exn) : option (py unit) :=
  match e with
  | IntegrityError _ => Some (ret tt)
  | _ => None
  end.

Definition refresh_message (request_id : string) (response : option message)
    (exception : option string) : py unit :=
  match exception with
  | Some e => print ("ERROR: " +:+ e)
  | None =>
      match response with
      | None => raise (TypeError "'NoneType' object is not subscriptable")
      | Some r =>
          let message_num := msg_id r in
          let labels := default [] (msg_labelIds r) in
          (sql_execute (Sql.delete_labels message_num) ;;;
           for_each labels (fun label =>
             try_except (sql_execute (Sql.insert_label message_num label))
                        pass_IntegrityError))%py
      end
  end.

(** [str(exception)], which is [None] for no exception. *)
Definition str_of_exception (exception : option string) : string :=
  default "None" exception.

Definition purged_message (request_id : string) (response : option message)
    (exception : option string) : py unit :=
  print ("ERROR: " +:+ str_of_exception exception).

(** The [for part in parts] of [backup_chat]: the texts of the parts, one
    after the other. *)
Definition chat_text (parts : list (option string)) : string :=
  foldl (fun full_message part => full_message +:+ default "" part) "" parts.

Definition backup_chat (local_folder : string) (request_id : string)
    (response : option message) (exception : option string) : py unit :=
  match exception with
  | Some e => print (Py.nl +:+ "ERROR: " +:+ e)
  | None =>
      match response with
      | None => ret tt
      | Some r =>
          let message_num := msg_id r in
          let labels := default [] (msg_labelIds r) in
          let message_date := (inject_Z (msg_internalDate r) / 1000)%Q in
          ((fun w => Ok tt (set_backup_count S w)) ;;;
           let full_message := chat_text (msg_parts r) in
           let filename := "chat-" +:+ message_num +:+ ".json" in
           let full_path := Py.path_join local_folder filename in
           write_file full_path
             (ChatDocument message_num (msg_threadId r) (msg_internalDate r)
                full_message labels) ;;;
           try_except
             (sql_execute (Sql.insert_message message_num filename message_date) ;;;
              sql_execute (Sql.delete_labels message_num) ;;;
              for_each labels (fun label =>
                sql_execute (Sql.insert_label message_num label)))
             pass_IntegrityError)%py
      end
  end.

Definition restored_message (request_id : string) (response : option message)
    (exception : option string) : py unit :=
  match exception with
  | Some e => print ("ERROR: " +:+ e)
  | None =>
      try_except (sql_execute (Sql.insert_restored request_id)) pass_IntegrityError
  end.

Definition backup_message (local_folder : string) (request_id : string)
    (response : option message) (exception : option string) : py unit :=
  match exception with
  | Some e => print (Py.nl +:+ "ERROR: " +:+ e)
  | None =>
      match response with
      | None => ret tt
      | Some r =>
          let message_num := msg_id r in
          let labels := default [] (msg_labelIds r) in
          let message_date := (inject_Z (msg_internalDate r) / 1000)%Q in
          ((fun w => Ok tt (set_backup_count S w)) ;;;
           let filename :=
             if String.eqb request_id message_num
             then message_num +:+ ".eml" else request_id in
           let full_filename := Py.path_join local_folder filename in
           write_file full_filename (RawMessage (msg_raw r)) ;;;
           try_except
             (sql_execute (Sql.insert_message message_num filename message_date) ;;;
              sql_execute (Sql.delete_labels message_num) ;;;
              for_each labels (fun label =>
                sql_execute (Sql.insert_label message_num label)))
             pass_IntegrityError)%py
      end
  end.

(** One resolved item of a batch: the request id, the response or [None],
    the exception or [None]. *)
Definition outcome : Type := string * option message * option string.

(** The batch hands every resolved item to its callback, one after the
    other, in the order of the requests. *)
Definition run_batch
    (callback : string -> option message -> option string -> py unit)
    (items : list outcome) : py unit :=
  for_each items (fun it => callback it.1.1 it.1.2 it.2).

(** ** [main.py]: opening the ledger *)

(** The call [convertDB(sqlconn, db_settings['db_version'])]: [convertDB]
    takes three positional arguments, so the call raises before the body
    runs. *)
Definition convertDB_call (oldversion : string) : py unit :=
  raise (TypeError "convertDB() missing 1 required positional argument: 'oldversion'").

(** Lines 145-157 of [main]: what follows [sqlite3.connect]. *)
Definition open_ledger (newDB : bool) (action email local_folder : string)
    : py unit :=
  ((if newDB then initializeDB email else ret tt) ;;;
   db_settings <- get_db_settings ;;
   check_db_settings db_settings action email ;;;
   if negb (Py.mem action restore_actions)
   then
     (db_version <- getitem db_settings "db_version" ;;
      (if Py.str_lt db_version __db_schema_version__
       then (convertDB_call db_version ;;; get_db_settings)
       else ret db_settings) ;;;
      if String.eqb action "reindex"
      then (getMessageIDs local_folder ;;;
            rebuildUIDTable ;;;
            commit ;;;
            sys_exit 0)
      else ret tt)
   else ret tt)%py.

(** ** Observations on a run *)

(** The delays the process slept, in order. *)
Definition sleeps (t : list event) : list Q :=
  omap (fun e => match e with Sleep q => Some q | _ => None end) t.

(** The requests sent, in order. *)
Definition requests (t : list event) : list request :=
  omap (fun e => match e with Execute r => Some r | _ => None end) t.

(** What was printed on standard output, in order. *)
Definition printed (t : list event) : list string :=
  omap (fun e => match e with Stdout s => Some s | _ => None end) t.

(** The items of a page; a page without the field has none. *)
Definition page_items (p : response) : list item := default [] (r_items p).

(** The cursor sent with the [j]-th request of a listing that starts from
    [tok] and receives [pages]. *)
Definition token_before (tok : option string) (pages : list response) (j : nat)
    : option string :=
  match j with
  | O => tok
  | S j' => pages !! j' ≫= r_nextPageToken
  end.

(** The call did not hand back a response: it raised, returned [None], or
    left the process. *)
Definition gave_up {A} (r : result world (option A)) : Prop :=
  match r with
  | Ok (Some _) _ => False
  | _ => True
  end.

(** The jitter of the [i]-th backoff after [w]. *)
Definition jitter_after (w : world) (i : nat) : Q :=
  randomness (1 + entropy w (draws w + i) mod 1000).

(** The delay of the [i]-th backoff of a loop over [ns] that starts in [w]. *)
Definition delay_of (ns : list Z) (w : world) (i : nat) : Q :=
  (inject_Z (wait_on_fail (nth i ns 0%Z)) + jitter_after w i)%Q.

(** What a run of the retry loop over [ns] from [w] that made [k] attempts
    leaves behind. *)
Definition callGAPI_post (ns : list Z) (req : request) (w : world)
    (r : result world (option response)) (k : nat) : Prop :=
  (1 <= k <= length ns)%nat /\
  attempts (world_of r) = (attempts w + k)%nat /\
  remote (world_of r) = remote w /\
  entropy (world_of r) = entropy w /\
  draws (world_of r) = (draws w + (k - 1))%nat /\
  sleeps (trace (world_of r)) = sleeps (trace w) ++ (delay_of ns w <$> seq 0 (k - 1)) /\
  forall resp, returned r = Some (Some resp) <->
               remote w (attempts w + k - 1)%nat req = Returns resp.


(** ** Notions used in the statements *)

(** The world after the cursor's ledger became [l]. *)
Definition put_cur (l : ledger) (w : world) : world :=
  set_sqlconn (fun c => {| cur := l; committed := committed c |}) w.

(** The world after a connection was opened on the database [l]. *)
Definition connect (l : ledger) (w : world) : world :=
  set_sqlconn (fun _ => {| cur := l; committed := l |}) w.

(** The connection to a database file that was just created. *)
Definition fresh_connection : connection :=
  {| cur := Sql.empty; committed := Sql.empty |}.

(** The ledger [initializeDB] leaves in a new database file. *)
Definition initial_ledger (email : string) : ledger :=
  {| settings := Some [("email_address", email); ("db_version", __db_schema_version__)];
     messages := Some []; labels := Some []; labelidx := true; uids := Some [];
     restored_messages := None; restored_key := false |}.

(** The uniqueness constraints of the ledger hold of its rows. *)
Definition unique_rows (l : ledger) : Prop :=
  (forall rows, messages l = Some rows -> NoDup (Sql.message_num <$> rows)) /\
  (labelidx l = true -> forall rows, labels l = Some rows -> NoDup rows) /\
  (restored_key l = true ->
   forall rows, restored_messages l = Some rows -> NoDup rows).

(** The numbers of the messages the ledger records, in the order of their
    rows. *)
Definition recorded (l : ledger) : option (list string) :=
  option_map (map Sql.message_num) (messages l).

(** The numbers of the messages of [results] whose file is not among
    [fs]. *)
Definition lost_in (folder : string) (fs : gmap string file_content)
    (results : list (string * string)) : list string :=
  fst <$> filter (fun x => fs !! Py.path_join folder x.2 = None) results.

(** The rows of [labels] after the inserts of [refresh_message] for the
    labels [ls] of message [num]. *)
Fixpoint add_labels (idx : bool) (num : string) (ls : list string)
    (rows : list (string * string)) : list (string * string) :=
  match ls with
  | [] => rows
  | l :: rest =>
      add_labels idx num rest
        (if idx && bool_decide ((num, l) ∈ rows) then rows else rows ++ [(num, l)])
  end.

(** The file name [backup_message] records for the message, and the world
    after the message was counted and its file written. *)
Definition backup_filename (request_id : string) (r : message) : string :=
  if String.eqb request_id (msg_id r) then msg_id r +:+ ".eml" else request_id.

Definition message_stored (local_folder request_id : string) (r : message)
    (w : world) : world :=
  set_files (insert (Py.path_join local_folder (backup_filename request_id r))
                    (RawMessage (msg_raw r)))
    (set_backup_count S w).

(** The same for [backup_chat]. *)
Definition chat_filename (r : message) : string :=
  "chat-" +:+ msg_id r +:+ ".json".

Definition chat_stored (local_folder : string) (r : message) (w : world) : world :=
  set_files (insert (Py.path_join local_folder (chat_filename r))
                    (ChatDocument (msg_id r) (msg_threadId r) (msg_internalDate r)
                       (chat_text (msg_parts r)) (default [] (msg_labelIds r))))
    (set_backup_count S w).

(** The date a callback records for the message. *)
Definition message_date (r : message) : Q :=
  (inject_Z (msg_internalDate r) / 1000)%Q.

(** Two worlds that differ at most in what was written to the operator
    and slept. *)
Definition same_data (w w' : world) : Prop :=
  remote w = remote w' /\ entropy w = entropy w' /\
  attempts w = attempts w' /\ draws w = draws w' /\
  allLabelIds w = allLabelIds w' /\ sqlconn w = sqlconn w' /\
  files w = files w' /\ backup_count w = backup_count w'.

(** Two runs that end the same way, with the same value, exception or exit
    code, in worlds with the same data. *)
Definition same_outcome {A} (r r' : result world A) : Prop :=
  match r, r' with
  | Ok a w, Ok a' w' => a = a' /\ same_data w w'
  | Raise e w, Raise e' w' => e = e' /\ same_data w w'
  | Exit c w, Exit c' w' => c = c' /\ same_data w w'
  | _, _ => False
  end.

(** A computation that neither reads nor forgets the operator's trace. *)
Definition trace_blind {A} (m : py A) : Prop :=
  forall w w', same_data w w' -> same_outcome (m w) (m w').

(** An [except] clause whose handlers are blind to the trace. *)
Definition handler_blind {A} (h : exn -> option (py A)) : Prop :=
  forall e, match h e with Some k => trace_blind k | None => True end.

(** What the batch lemma needs of a callback: it is blind to the trace,
    and handed an exception it prints one line and returns. *)
Definition callback_is
    (callback : string -> option message -> option string -> py unit) : Prop :=
  (forall rid resp exc, trace_blind (callback rid resp exc)) /\
  (forall rid resp e w, exists text,
     callback rid resp (Some e) w =
       Ok tt (set_trace (fun t => t ++ [Stdout text]) w)).

(** The item resolved without an exception. *)
Definition succeeded (it : outcome) : Prop := it.2 = None.

Global Instance succeeded_dec (it : outcome) : Decision (succeeded it) :=
  decide (it.2 = None).

(** ** Worlds and inputs of the examples *)

(** No remote store in reach, an empty backup folder, a database file that
    was just created. *)
Definition blank_world : world :=
  {| remote := fun _ _ => NetworkFails "Unable to find the server";
     entropy := fun _ => 0; attempts := O; draws := O; trace := [];
     allLabelIds := ∅; sqlconn := fresh_connection;
     files := ∅; backup_count := O |}.

(** The world in which [random.randint(1, 1000)] draws [1000]. *)
Definition world_drawing_1000 : world :=
  {| remote := fun _ _ => NetworkFails "Unable to find the server";
     entropy := fun _ => 999; attempts := O; draws := O; trace := [];
     allLabelIds := ∅; sqlconn := fresh_connection;
     files := ∅; backup_count := O |}.

(** The world in which every request meets a backend error. *)
Definition world_backend_down : world :=
  {| remote := fun _ _ => HttpFails 500 "backendError" "Backend Error";
     entropy := fun _ => 0; attempts := O; draws := O; trace := [];
     allLabelIds := ∅; sqlconn := fresh_connection;
     files := ∅; backup_count := O |}.

Definition item_m1 : item := {["id" := "m1"]}.
Definition item_m2 : item := {["id" := "m2"]}.

(** The last page of the listing below. *)
Definition last_of_four : response :=
  {| r_items := Some [item_m2]; r_nextPageToken := None;
     r_labels := None; r_id := None; r_other := true |}.

(** A listing of four pages, of which the second has no items field and the
    third an empty list; only the last has no cursor. *)
Definition listing_of_four : list response :=
  [ {| r_items := Some [item_m1]; r_nextPageToken := Some "t1";
       r_labels := None; r_id := None; r_other := true |};
    {| r_items := None; r_nextPageToken := Some "t2";
       r_labels := None; r_id := None; r_other := false |};
    {| r_items := Some []; r_nextPageToken := Some "t3";
       r_labels := None; r_id := None; r_other := true |};
    last_of_four ].

Definition world_listing_four : world :=
  {| remote := fun k _ => match listing_of_four !! k with
                          | Some p => Returns p
                          | None => NetworkFails "Unable to find the server"
                          end;
     entropy := fun _ => 0; attempts := O; draws := O; trace := [];
     allLabelIds := ∅; sqlconn := fresh_connection;
     files := ∅; backup_count := O |}.

Definition list_messages : page_call :=
  {| pc_function := "list"; pc_page_message := None;
     pc_message_attribute := None; pc_soft_errors := false;
     pc_throw_reasons := []; pc_retry_reasons := [];
     pc_kwargs := [("userId", Some "me")] |}.

(** The cache [{"Work": "Label_1"}], in front of a remote store that
    answers a [create] with the id [Label_2]. *)
Definition world_Work_cached : world :=
  {| remote := fun _ _ =>
       Returns {| r_items := None; r_nextPageToken := None; r_labels := None;
                  r_id := Some "Label_2"; r_other := true |};
     entropy := fun _ => 0; attempts := O; draws := O; trace := [];
     allLabelIds := {["Work" := "Label_1"]}; sqlconn := fresh_connection;
     files := ∅; backup_count := O |}.

Definition message_m1 : message :=
  {| msg_id := "m1"; msg_labelIds := Some ["INBOX"; "UNREAD"];
     msg_threadId := Some "t1"; msg_internalDate := 1700000000000;
     msg_raw := "Subject: one"; msg_parts := [Some "one"] |}.

(** Five resolved items, of which the third failed. *)
Definition batch_of_five : list outcome :=
  [ ("m1", Some message_m1, None);
    ("m2", Some {| msg_id := "m2"; msg_labelIds := None;
                   msg_threadId := None; msg_internalDate := 1700000001000;
                   msg_raw := "Subject: two"; msg_parts := [] |}, None);
    ("m3", None, Some "<HttpError 404 Requested entity was not found.>");
    ("m4", Some {| msg_id := "m4"; msg_labelIds := Some ["SENT"];
                   msg_threadId := Some "t4"; msg_internalDate := 1700000003000;
                   msg_raw := "Subject: four"; msg_parts := [None; Some "four"] |}, None);
    ("m5", Some {| msg_id := "m5"; msg_labelIds := Some [];
                   msg_threadId := Some "t5"; msg_internalDate := 1700000004000;
                   msg_raw := "Subject: five"; msg_parts := [Some "five"] |}, None) ].

(** A ledger written by schema version 5. *)
Definition ledger_schema_5 : ledger :=
  {| settings := Some [("email_address", "user@example.com"); ("db_version", "5")];
     messages := Some []; labels := Some []; labelidx := true; uids := Some [];
     restored_messages := None; restored_key := false |}.

(** The settings of a ledger that names its schema version [10]. *)
Definition settings_schema_10 : gmap string string :=
  dict_of_rows [("email_address", "user@example.com"); ("db_version", "10")].

(** A new ledger in which [restored_messages] was created. *)
Definition ledger_with_markers : ledger :=
  Sql.with_restored (Some []) true (initial_ledger "user@example.com").

(** A ledger that records message [m1], whose file is not in the backup
    folder. *)
Definition ledger_m1_lost : ledger :=
  {| settings := Some [("email_address", "user@example.com"); ("db_version", "6")];
     messages := Some [("m1", "m1.eml", 1700000000%Q)];
     labels := Some [("m1", "INBOX")]; labelidx := true;
     uids := Some [("m1", "m1")];
     restored_messages := None; restored_key := false |}.

(** ** Further notions: the executor's verdict and its total delay *)

(** An answer the retry loop passes over at an attempt that is not the
    last: an HTTP failure whose reason is retryable and not thrown, or a
    network failure. *)
Definition retried (throw_reasons retry_reasons : list string) (a : attempt) : bool :=
  match a with
  | HttpFails _ reason _ =>
      negb (Py.mem reason throw_reasons)
      && Py.mem reason (builtin_retry_reasons ++ retry_reasons)
  | NetworkFails _ => true
  | _ => false
  end.

(** The first index from [i] on whose answer is not passed over, among the
    [more] next ones; [i + more] when all of them are. *)
Fixpoint final_attempt (passed : nat -> bool) (more i : nat) : nat :=
  match more with
  | O => i
  | S more' => if passed i then final_attempt passed more' (S i) else i
  end.

(** How a call ends, the world left aside. *)
Inductive verdict : Type :=
  | Hands (r : option response)
  | Raises (e : exn)
  | Leaves (code : Z).

Definition outcome_of (r : result world (option response)) : verdict :=
  match r with
  | Ok a _ => Hands a
  | Raise e _ => Raises e
  | Exit code _ => Leaves code
  end.

(** What the answer that ends a call makes of it. *)
Definition verdict_on (soft_errors : bool) (throw_reasons : list string)
    (a : attempt) : verdict :=
  match a with
  | Returns r => Hands (Some r)
  | HttpFails code reason message =>
      if Py.mem reason throw_reasons then Raises (HttpError code reason message)
      else if soft_errors then Hands None else Leaves 5
  | RefreshFails _ => Leaves 403
  | CertificateValidationUnsupported => Leaves 8
  | NetworkFails _ => Leaves 4
  | OtherFails e => Raises (OtherError e)
  end.

(** The seconds of a list of sleeps. *)
Definition total_delay (l : list Q) : Q := foldr Qplus 0%Q l.

(** ** [actions.py]: [labelIdsToLabels] *)

(** The module global [allLabels], the id-to-name cache of
    [labelIdsToLabels], rides along with the world. *)
Definition labels_world : Type := gmap string string * world.

(** A function that does not touch [allLabels]. *)
Definition in_world {A} (m : py A) : M labels_world A :=
  fun s =>
    match m s.2 with
    | Ok a w => Ok a (s.1, w)
    | Raise e w => Raise e (s.1, w)
    | Exit code w => Exit code (s.1, w)
    end.

(** The lazy load of the id-to-name cache. *)
Definition load_allLabels : M labels_world unit :=
  fun s =>
    if cache_is_empty s.1
    then
      (results <- in_world (callGAPI labels_list_request false [] []) ;;
       l <- in_world (get_labels results) ;;
       for_each l (fun a s' => Ok tt (<[l_id a := l_name a]> s'.1, s'.2)))%py s
    else Ok tt s.

(** [for labelId in labelIds], the names found so far threaded through. *)
Fixpoint names_of (allLabels : gmap string string) (labels labelIds : list string)
    : list string :=
  match labelIds with
  | [] => labels
  | labelId :: rest =>
      names_of allLabels
        (labels ++ [match allLabels !! labelId with
                    | Some name => name
                    | None => labelId
                    end]) rest
  end.

Definition labelIdsToLabels (labelIds : list string) : M labels_world (list string) :=
  (load_allLabels ;;; fun s => Ok (names_of s.1 [] labelIds) s)%py.

(** The id of a reserved or system name, from the name in lower case. *)
Definition well_known_id (l : string) : string :=
  if Py.mem l ["chat"; "chats"] then "CHAT"
  else if Py.mem l ["draft"; "drafts"] then "DRAFT"
  else Py.upper l.

(** ** Further notions: the ledger *)

(** The file a record names is in the backup folder. *)
Definition has_file (folder : string) (fs : gmap string file_content)
    (row : string * string * Q) : Prop :=
  is_Some (fs !! Py.path_join folder (Sql.message_filename row)).

Global Instance has_file_dec (folder : string) (fs : gmap string file_content)
    (row : string * string * Q) : Decision (has_file folder fs row) :=
  decide (is_Some (fs !! Py.path_join folder (Sql.message_filename row))).

(** The labels of [ls] up to, and without, the first one that is in [seen]
    or came before in [ls]. *)
Fixpoint until_repeat (seen ls : list string) : list string :=
  match ls with
  | [] => []
  | l :: rest =>
      if bool_decide (l ∈ seen) then [] else l :: until_repeat (seen ++ [l]) rest
  end.

(** ** [utils.py]: [bytes_to_larger] *)

(** The integer nearest to [q], the even one of two that are equally near:
    the rounding of ['%.1f'] on the tenths of a float, which is exact for
    the quotients below (an integer under [2^50] over a power of two). *)
Definition round_half_even (q : Q) : Z :=
  let n := Qnum q in
  let d := Zpos (Qden q) in
  let f := n / d in
  let r := n mod d in
  if 2 * r <? d then f
  else if d <? 2 * r then f + 1
  else if Z.even f then f else f + 1.

(** ['%.1f' % q] for a [q] that is not negative. *)
Definition format_1f (q : Q) : string :=
  let t := round_half_even (q * 10) in
  pretty (t / 10) +:+ "." +:+ pretty (t mod 10).

(** [myval] is the integer [int(myval)] gave; running off the last [elif]
    returns [None]. *)
Definition bytes_to_larger (myval : Z) : option string :=
  if myval <? 1024 then Some (pretty myval +:+ " bytes")
  else if myval <? 1024 ^ 2
  then Some (format_1f (inject_Z myval / inject_Z 1024) +:+ " KB")
  else if myval <? 1024 ^ 3
  then Some (format_1f (inject_Z myval / inject_Z (1024 ^ 2)) +:+ " MB")
  else if myval <? 1024 ^ 4
  then Some (format_1f (inject_Z myval / inject_Z (1024 ^ 3)) +:+ " GB")
  else if myval <? 1024 ^ 5
  then Some (format_1f (inject_Z myval / inject_Z (1024 ^ 4)) +:+ " TB")
  else None.

(** ** [main.py]: the checks of the arguments *)

(** The options [main] reads before it opens anything. *)
Record options : Type := {
  opt_action : string;
  opt_email : option string;
  opt_gmail_search : string;
  opt_local_folder : string
}.

Definition doCreateProject : py unit :=
  (print "ERROR: Project creation functionality has been moved to gyb library format." ;;;
   print "This feature is temporarily unavailable during the refactoring." ;;;
   sys_exit 1)%py.

Definition doDelProjects : py unit :=
  (print "ERROR: Project deletion functionality has been moved to gyb library format." ;;;
   print "This feature is temporarily unavailable during the refactoring." ;;;
   sys_exit 1)%py.

Definition doCheckServiceAccount : py unit :=
  (print "ERROR: Service account check functionality has been moved to gyb library format." ;;;
   print "This feature is temporarily unavailable during the refactoring." ;;;
   sys_exit 1)%py.

(** Lines 82-102 of [main]: from the check of [split-mbox] to the project
    actions.  The options are returned with the backup folder settled. *)
Definition check_arguments (o : options) : py options :=
  ((if String.eqb (opt_action o) "split-mbox"
    then (print ("split-mbox is no longer necessary and is deprecated. Mbox file size"
                 +:+ " should not impact restore performance in this version.") ;;;
          sys_exit 1)
    else ret tt) ;;;
   (if negb (truthy (opt_email o))
    then (print "ERROR: --email is required." ;;; sys_exit 1)
    else ret tt) ;;;
   (if Py.mem (opt_action o) restore_actions
       && negb (String.eqb (opt_gmail_search o) "-is:chat")
    then (print "ERROR: --search does not work with restores." ;;; sys_exit 1)
    else ret tt) ;;;
   let o' :=
     if String.eqb (opt_local_folder o) "XXXuse-email-addressXXX"
     then {| opt_action := opt_action o; opt_email := opt_email o;
             opt_gmail_search := opt_gmail_search o;
             opt_local_folder := "GYB-GMail-Backup-" +:+ default "None" (opt_email o) |}
     else o in
   (if String.eqb (opt_action o') "create-project"
    then (doCreateProject ;;; sys_exit 0)
    else if String.eqb (opt_action o') "delete-projects"
    then (doDelProjects ;;; sys_exit 0)
    else if String.eqb (opt_action o') "check-service-account"
    then (doCheckServiceAccount ;;; sys_exit 0)
    else ret tt) ;;;
   ret o')%py.

(** ** Further examples *)

(** A listing whose first page carries a cursor and whose second request
    the remote store refuses. *)
Definition world_listing_cut : world :=
  {| remote := fun k _ =>
       match k with
       | O => Returns {| r_items := Some [item_m1]; r_nextPageToken := Some "t1";
                         r_labels := None; r_id := None; r_other := true |}
       | _ => HttpFails 404 "notFound" "Not Found"
       end;
     entropy := fun _ => 0; attempts := O; draws := O; trace := [];
     allLabelIds := ∅; sqlconn := fresh_connection;
     files := ∅; backup_count := O |}.

(** [list_messages], called with [soft_errors=True]. *)
Definition list_messages_soft : page_call :=
  {| pc_function := "list"; pc_page_message := None;
     pc_message_attribute := None; pc_soft_errors := true;
     pc_throw_reasons := []; pc_retry_reasons := [];
     pc_kwargs := [("userId", Some "me")] |}.

(** A mailbox with the two user labels [Work] and [Home]. *)
Definition two_labels : list label_entry :=
  [ {| l_id := "Label_1"; l_name := "Work" |};
    {| l_id := "Label_7"; l_name := "Home" |} ].

(** The world whose remote store answers every request with the listing of
    [two_labels], and whose cache is still empty. *)
Definition world_two_labels : world :=
  {| remote := fun _ _ =>
       Returns {| r_items := None; r_nextPageToken := None;
                  r_labels := Some two_labels; r_id := None; r_other := false |};
     entropy := fun _ => 0; attempts := O; draws := O; trace := [];
     allLabelIds := ∅; sqlconn := fresh_connection;
     files := ∅; backup_count := O |}.

(** A ledger with the records of [m1] and [m2], in a backup folder that
    holds the file of [m2] only. *)
Definition ledger_two_records : ledger :=
  {| settings := Some [("email_address", "user@example.com"); ("db_version", "6")];
     messages := Some [("m1", "m1.eml", 1700000000%Q); ("m2", "m2.eml", 1700000001%Q)];
     labels := Some [("m1", "INBOX"); ("m2", "SENT"); ("m1", "UNREAD")];
     labelidx := true;
     uids := Some [("m1", "m1"); ("m2", "m2")];
     restored_messages := None; restored_key := false |}.

Definition world_m2_on_disk : world :=
  connect ledger_two_records
    (set_files (insert "GYB-GMail-Backup/m2.eml" (RawMessage "Subject: two")) blank_world).

(** * Properties *)

(** ** The resilient call executor *)

Lemma sleeps_app t1 t2 : sleeps (t1 ++ t2) = sleeps t1 ++ sleeps t2.
Proof. unfold sleeps. apply omap_app. Qed.

Lemma backoff_spec n r reason w :
  exists w', _backoff n r reason w = Ok tt w' /\
    remote w' = remote w /\ entropy w' = entropy w /\ attempts w' = attempts w /\
    draws w' = S (draws w) /\
    sleeps (trace w') = sleeps (trace w) ++ [(inject_Z (wait_on_fail n) + jitter_after w 0)%Q].
Proof.
  unfold _backoff, bind, randint, sleep, stderr_write, emit, ret, jitter_after.
  destruct (3 <? n); simpl; eexists; (split; [reflexivity|]); simpl;
    rewrite ?sleeps_app; simpl; rewrite ?app_nil_r, ?Nat.add_0_r; repeat split; try reflexivity.
Qed.

Section CallExecutor.

Variables (req : request) (soft_errors : bool).
Variables (throw_reasons retry_reasons : list string).

Lemma callGAPI_post_now ns n w r :
  attempts (world_of r) = S (attempts w) ->
  remote (world_of r) = remote w -> entropy (world_of r) = entropy w ->
  draws (world_of r) = draws w ->
  sleeps (trace (world_of r)) = sleeps (trace w) ->
  (forall resp, returned r = Some (Some resp) <-> remote w (attempts w) req = Returns resp) ->
  callGAPI_post (n :: ns) req w r 1.
Proof.
  intros Ha Hr He Hd Hs Hret. unfold callGAPI_post. simpl.
  rewrite Ha, Hr, He, Hd, Hs, app_nil_r.
  replace (attempts w + 1 - 1)%nat with (attempts w) by lia.
  repeat split; try lia; apply Hret.
Qed.

Lemma callGAPI_post_later n rest w w2 r k :
  remote w2 = remote w -> entropy w2 = entropy w ->
  attempts w2 = S (attempts w) -> draws w2 = S (draws w) ->
  sleeps (trace w2) = sleeps (trace w) ++ [delay_of (n :: rest) w 0] ->
  callGAPI_post rest req w2 r k ->
  callGAPI_post (n :: rest) req w r (S k).
Proof.
  intros Hr He Ha Hd Hs (Hk & Ha' & Hr' & He' & Hd' & Hs' & Hret).
  unfold callGAPI_post. simpl length.
  rewrite Ha', Hr', He', Hd', Hs', Hr, He, Ha, Hd, Hs.
  repeat split; try lia.
  - rewrite <- app_assoc. f_equal.
    replace (S k - 1)%nat with (S (k - 1)) by lia.
    rewrite <- cons_seq, fmap_cons, <- fmap_S_seq, <- list_fmap_compose. simpl. f_equal.
    apply list_fmap_ext. intros _ i _. unfold delay_of, jitter_after. simpl.
    rewrite He, Hd. replace (S (draws w) + i)%nat with (draws w + S i)%nat by lia. reflexivity.
  - intros H. apply Hret in H. rewrite Hr, Ha in H.
    replace (attempts w + S k - 1)%nat with (S (attempts w) + k - 1)%nat by lia. done.
  - intros H. apply Hret. rewrite Hr, Ha.
    replace (attempts w + S k - 1)%nat with (S (attempts w) + k - 1)%nat in H by lia. done.
Qed.

Lemma callGAPI_for_spec : forall ns w,
  last ns = Some retries ->
  exists k,
    callGAPI_post ns req w
      (callGAPI_for ns req soft_errors throw_reasons retry_reasons w) k.
Proof.
  induction ns as [|n rest IH]; intros w Hlast; [done|].
  set (w1 := set_attempts S (set_trace (fun t => t ++ [Execute req]) w)).
  assert (Hcont : forall reason,
     (forall resp, remote w (attempts w) req <> Returns resp) ->
     negb (n =? retries) = true ->
     exists k, callGAPI_post (n :: rest) req w
       (bind (_backoff n retries reason)
          (fun _ => callGAPI_for rest req soft_errors throw_reasons retry_reasons)
          w1) k).
  { intros reason Hfail Hn. unfold bind.
    destruct (backoff_spec n retries reason w1)
      as (w2 & -> & Hr2 & He2 & Ha2 & Hd2 & Hs2).
    subst w1. simpl in Hr2, He2, Ha2, Hd2, Hs2.
    rewrite sleeps_app in Hs2. simpl in Hs2. rewrite app_nil_r in Hs2.
    destruct rest as [|n' rest'].
    { simpl in Hlast. injection Hlast as ->. done. }
    destruct (IH w2) as [k Hk]; [done|].
    exists (S k). eapply callGAPI_post_later; eauto. }
  assert (Hnow : forall r : result world (option response),
     world_of r = w1 \/ (exists t, world_of r = set_trace (fun t0 => t0 ++ [t]) w1 /\ sleeps [t] = []) ->
     (forall resp, returned r = Some (Some resp) <-> remote w (attempts w) req = Returns resp) ->
     exists k, callGAPI_post (n :: rest) req w r k).
  { intros r Hw Hret. exists 1%nat.
    destruct Hw as [Hw | (t & Hw & Ht)]; apply callGAPI_post_now; rewrite ?Hw; simpl; try done;
      rewrite !sleeps_app; simpl; rewrite ?app_nil_r; try done.
    destruct t; try done; by rewrite app_nil_r. }
  simpl. unfold bind at 1. unfold execute at 1. fold w1.
  destruct (remote w (attempts w) req) as [r|code reason message|e| |e|e] eqn:Hrem.
  - apply Hnow; [by left|]. intros resp; simpl. split; congruence.
  - destruct (Py.mem reason throw_reasons);
      [apply Hnow; [by left|]; intros resp; simpl; split; congruence|].
    destruct (negb (n =? retries) && _) eqn:Hg.
    { apply andb_true_iff in Hg as [Hg _]. apply Hcont; [congruence|done]. }
    destruct soft_errors;
      (apply Hnow; [right; eexists; split; [reflexivity|done]|]);
      intros resp; simpl; split; congruence.
  - apply Hnow; [right; eexists; split; [reflexivity|done]|]. intros resp; simpl; split; congruence.
  - apply Hnow; [right; eexists; split; [reflexivity|done]|]. intros resp; simpl; split; congruence.
  - destruct (negb (n =? retries)) eqn:Hg.
    { apply Hcont; [congruence|done]. }
    apply Hnow; [right; eexists; split; [reflexivity|done]|]. intros resp; simpl; split; congruence.
  - apply Hnow; [by left|]. intros resp; simpl; split; congruence.
Qed.

Lemma wait_on_fail_min (n : Z) : wait_on_fail n = Z.min (2 ^ n) 60.
Proof.
  unfold wait_on_fail. destruct (2 ^ n <? 60) eqn:H.
  - apply Z.ltb_lt in H. lia.
  - apply Z.ltb_ge in H. lia.
Qed.

Lemma last_attempt_numbers : last attempt_numbers = Some retries.
Proof. reflexivity. Qed.

Lemma nth_attempt_numbers (i : nat) :
  (i < 10)%nat -> nth i attempt_numbers 0 = Z.of_nat (S i).
Proof.
  intros H. do 10 (destruct i as [|i]; [reflexivity|]). lia.
Qed.

Lemma randomness_range (k : Z) :
  1 <= k <= 1000 -> (0 < randomness k)%Q /\ (randomness k <= 1)%Q.
Proof.
  intros H. unfold randomness, Qdiv, Qmult, Qinv, Qlt, Qle, inject_Z. simpl. lia.
Qed.

Lemma jitter_after_draw (w : world) (i : nat) :
  exists k, 1 <= k <= 1000 /\ jitter_after w i = randomness k.
Proof.
  exists (1 + entropy w (draws w + i) mod 1000). split; [|reflexivity].
  pose proof (Z.mod_pos_bound (entropy w (draws w + i)) 1000). lia.
Qed.


End CallExecutor.


(** C9, as the code has it. The jitter [_backoff] adds to a delay is
    [k/1000] for the integer [k] that [random.randint(1, 1000)] draws: it is
    greater than [0] and at most [1], and the delay slept is the computed
    delay plus this jitter. *)
Theorem backoff_jitter_range (n r : Z) (reason : string) (w : world) :
  sleeps (trace (world_of (_backoff n r reason w))) =
    sleeps (trace w) ++ [(inject_Z (wait_on_fail n) + jitter_after w 0)%Q] /\
  (exists k, 1 <= k <= 1000 /\ jitter_after w 0 = randomness k) /\
  (0 < jitter_after w 0)%Q /\ (jitter_after w 0 <= 1)%Q.
Proof.
  destruct (backoff_spec n r reason w) as (w' & -> & _ & _ & _ & _ & Hs).
  split; [exact Hs|]. split; [apply jitter_after_draw|].
  destruct (jitter_after_draw w 0) as (k & Hk & ->). by apply randomness_range.
Qed.

(** C9 as stated fails: when [random.randint(1, 1000)] draws [1000] the
    jitter is [1], which is not below [1]; the first backoff then sleeps
    [2 + 1] seconds. *)
Lemma backoff_jitter_reaches_one :
  sleeps (trace (world_of (_backoff 1 retries "backendError" world_drawing_1000)))
    = [(inject_Z 2 + jitter_after world_drawing_1000 0)%Q] /\
  (jitter_after world_drawing_1000 0 == 1)%Q /\
  ~ (0 <= jitter_after world_drawing_1000 0 /\ jitter_after world_drawing_1000 0 < 1)%Q.
Proof.
  split; [reflexivity|]. split; [reflexivity|].
  intros [_ H]. vm_compute in H. discriminate.
Qed.

(** ** The paginator *)

Lemma requests_app t1 t2 : requests (t1 ++ t2) = requests t1 ++ requests t2.
Proof. unfold requests. apply omap_app. Qed.

Lemma attempt_numbers_cons : attempt_numbers = 1 :: seqZ 2 9.
Proof. reflexivity. Qed.

Lemma callGAPI_first_try req soft throw retry w p :
  remote w (attempts w) req = Returns p ->
  callGAPI req soft throw retry w =
    Ok (Some p) (set_attempts S (set_trace (fun t => t ++ [Execute req]) w)).
Proof.
  intros H. unfold callGAPI. rewrite attempt_numbers_cons.
  simpl. unfold bind, execute. by rewrite H.
Qed.

Lemma show_page_spec pm ma p n t w :
  exists w', show_page pm ma p n t w = Ok tt w' /\
    remote w' = remote w /\ attempts w' = attempts w /\
    requests (trace w') = requests (trace w).
Proof.
  unfold show_page. destruct pm as [template|]; [|by eexists].
  destruct (truthy (Some template)); [|by eexists].
  eexists. split; [reflexivity|]. simpl. rewrite requests_app. simpl.
  by rewrite app_nil_r.
Qed.

Lemma falsy_no_cursor p : falsy (Some p) = true -> r_nextPageToken p = None /\ r_items p = None.
Proof.
  unfold falsy. destruct (r_items p), (r_nextPageToken p); try done.
Qed.

Section Paginator.

Variable c : page_call.

Lemma while_step_cursor fuel tok all total w p t :
  remote w (attempts w) (page_request c tok) = Returns p ->
  r_nextPageToken p = Some t ->
  exists w' total',
    callGAPIpages_while (S fuel) c tok all total w =
      callGAPIpages_while fuel c (Some t) (all ++ page_items p) total' w' /\
    remote w' = remote w /\ attempts w' = S (attempts w) /\
    requests (trace w') = requests (trace w) ++ [page_request c tok].
Proof.
  intros Hrem Htok. cbn [callGAPIpages_while].
  rewrite (callGAPI_first_try _ _ _ _ _ _ Hrem).
  assert (falsy (Some p) = false) as ->.
  { destruct (falsy (Some p)) eqn:F; [|done]. apply falsy_no_cursor in F as [F _]. congruence. }
  match goal with |- context [show_page ?a ?b ?c ?d ?e ?f] =>
    destruct (show_page_spec a b c d e f) as (w2 & -> & Hr & Ha & Hq) end.
  rewrite Htok. simpl in Hr, Ha, Hq. rewrite requests_app in Hq. simpl in Hq.
  exists w2, (total + match r_items p with Some l => length l | None => O end)%nat.
  split; [|done].
  unfold page_items. destruct (r_items p); simpl; [done|by rewrite app_nil_r].
Qed.

Lemma while_step_final fuel tok all total w p :
  remote w (attempts w) (page_request c tok) = Returns p ->
  r_nextPageToken p = None ->
  exists w',
    callGAPIpages_while (S fuel) c tok all total w =
      Some (Ok (all ++ page_items p) w') /\
    remote w' = remote w /\ attempts w' = S (attempts w) /\
    requests (trace w') = requests (trace w) ++ [page_request c tok].
Proof.
  intros Hrem Htok. cbn [callGAPIpages_while].
  rewrite (callGAPI_first_try _ _ _ _ _ _ Hrem).
  destruct (falsy (Some p)) eqn:F.
  - apply falsy_no_cursor in F as [_ F].
    match goal with |- context [show_page ?a ?b ?c ?d ?e ?f] =>
      destruct (show_page_spec a b c d e f) as (w2 & -> & Hr & Ha & Hq) end.
    simpl in Hr, Ha, Hq. rewrite requests_app in Hq. simpl in Hq.
    unfold page_items. rewrite F. simpl.
    unfold bind. destruct (truthy (pc_page_message c)); simpl; eexists; (split; [reflexivity|]);
      simpl; rewrite ?requests_app; simpl; rewrite ?app_nil_r; done.
  - match goal with |- context [show_page ?a ?b ?c ?d ?e ?f] =>
      destruct (show_page_spec a b c d e f) as (w2 & -> & Hr & Ha & Hq) end.
    simpl in Hr, Ha, Hq. rewrite requests_app in Hq. simpl in Hq.
    rewrite Htok. unfold page_items.
    unfold bind. destruct (truthy (pc_page_message c)), (r_items p); simpl; eexists; (split; [rewrite ?app_nil_r; reflexivity|]);
      simpl; rewrite ?requests_app; simpl; rewrite ?app_nil_r; done.
Qed.

Lemma token_before_shift tok p init j :
  token_before tok (p :: init) (S j) = token_before (r_nextPageToken p) init j.
Proof. destruct j; reflexivity. Qed.

Lemma while_consumes init : forall tok all total w fuel,
  Forall (fun p => is_Some (r_nextPageToken p)) init ->
  (forall j p, init !! j = Some p ->
     remote w (attempts w + j)%nat (page_request c (token_before tok init j)) = Returns p) ->
  exists w' total',
    callGAPIpages_while (length init + fuel) c tok all total w =
      callGAPIpages_while fuel c (token_before tok init (length init))
        (all ++ concat (page_items <$> init)) total' w' /\
    remote w' = remote w /\ attempts w' = (attempts w + length init)%nat /\
    requests (trace w') =
      requests (trace w) ++
      ((fun j => page_request c (token_before tok init j)) <$> seq 0 (length init)).
Proof.
  induction init as [|p init IH]; intros tok all total w fuel Hcur Hrem.
  { exists w, total. simpl. rewrite !app_nil_r, Nat.add_0_r. done. }
  apply Forall_cons in Hcur as [[t Ht] Hcur].
  destruct (while_step_cursor (length init + fuel) tok all total w p t)
    as (w1 & total1 & Heq & Hr1 & Ha1 & Hq1); [|done|].
  { specialize (Hrem O p eq_refl). by rewrite Nat.add_0_r in Hrem. }
  destruct (IH (Some t) (all ++ page_items p) total1 w1 fuel Hcur)
    as (w2 & total2 & Heq2 & Hr2 & Ha2 & Hq2).
  { intros j q Hj. rewrite Hr1, Ha1. specialize (Hrem (S j) q Hj).
    rewrite token_before_shift, Ht in Hrem.
    by replace (S (attempts w) + j)%nat with (attempts w + S j)%nat by lia. }
  exists w2, total2. split; [|split; [|split]].
  - change (length (p :: init) + fuel)%nat with (S (length init + fuel)).
    rewrite Heq, Heq2. change (length (p :: init)) with (S (length init)).
    rewrite token_before_shift, Ht.
    by rewrite fmap_cons, concat_cons, app_assoc.
  - congruence.
  - rewrite Ha2, Ha1. simpl. lia.
  - rewrite Hq2, Hq1, <- app_assoc. f_equal.
    change (length (p :: init)) with (S (length init)).
    rewrite <- cons_seq, fmap_cons. cbn [app]. f_equal.
    rewrite <- fmap_S_seq, <- list_fmap_compose. apply list_fmap_ext.
    intros _ j _. unfold compose. by rewrite token_before_shift, Ht.
Qed.


End Paginator.


(** ** The label directory *)

Lemma load_allLabelIds_loaded w :
  allLabelIds w ≠ ∅ -> load_allLabelIds w = Ok tt w.
Proof.
  intros H. unfold load_allLabelIds, cache_is_empty.
  by rewrite bool_decide_eq_false_2.
Qed.

Lemma labelsToLabelIds_one label w :
  allLabelIds w ≠ ∅ ->
  labelsToLabelIds [label] w =
    match resolve_label [] label w with
    | Ok ids w' => Ok ids w'
    | Raise e w' => Raise e w'
    | Exit code w' => Exit code w'
    end.
Proof.
  intros H. unfold labelsToLabelIds, bind at 1.
  rewrite load_allLabelIds_loaded by done. simpl. unfold bind.
  by destruct (resolve_label [] label w).
Qed.

Lemma resolve_label_cached ids label i w :
  allLabelIds w !! label = Some i -> resolve_label ids label w = Ok (ids ++ [i]) w.
Proof. intros H. unfold resolve_label. by rewrite H. Qed.

Lemma createLabel_created name r i w :
  remote w (attempts w) (labels_create_request name) = Returns r ->
  r_id r = Some i ->
  createLabel name w =
    Ok i (set_attempts S (set_trace (fun t => t ++ [Execute (labels_create_request name)]) w)).
Proof.
  intros Hrem Hid. unfold createLabel, try_except, bind.
  rewrite (callGAPI_first_try _ _ _ _ _ _ Hrem). simpl. by rewrite Hid.
Qed.





(** ** The schema guard *)

Lemma ltb_false_leb (a b : string) : String.ltb a b = false <-> String.leb b a = true.
Proof.
  unfold String.ltb, String.leb. rewrite (String.compare_antisym b a).
  destruct (String.compare a b); simpl; split; congruence.
Qed.

Lemma version_refused_lexicographic (v : string) :
  version_refused v = false <->
  String.leb __db_schema_min_version__ v = true /\
  String.leb v __db_schema_version__ = true.
Proof.
  unfold version_refused, Py.str_lt, Py.str_gt.
  rewrite orb_false_iff, !ltb_false_leb. done.
Qed.

Lemma version_refused_iff (v : string) : version_refused v = false <-> v = "6".
Proof.
  rewrite version_refused_lexicographic. split.
  - intros [H1 H2]. by apply String.leb_antisym.
  - intros ->. done.
Qed.

Lemma check_db_settings_refused db_settings action email w v :
  db_settings !! "db_version" = Some v ->
  version_refused v = true ->
  exists w', check_db_settings db_settings action email w = Exit 4 w' /\
             sqlconn w' = sqlconn w.
Proof.
  intros Hv Href. unfold check_db_settings, bind at 1, getitem. rewrite Hv.
  unfold ret at 1. unfold bind at 1. rewrite Href. by eexists.
Qed.

Lemma check_db_settings_accepted db_settings action email w v :
  db_settings !! "db_version" = Some v ->
  version_refused v = false ->
  forall w', check_db_settings db_settings action email w <> Exit 4 w'.
Proof.
  intros Hv Href w'. unfold check_db_settings, bind at 1, getitem. rewrite Hv.
  unfold ret at 1. unfold bind at 1. rewrite Href. unfold ret at 1.
  destruct (negb (Py.mem action restore_actions)); [|done].
  unfold bind. destruct (db_settings !! "email_address"); simpl; [|done].
  by destruct (negb _).
Qed.

Lemma check_db_settings_passes_only_current db_settings action email w w' :
  check_db_settings db_settings action email w = Ok tt w' ->
  db_settings !! "db_version" = Some __db_schema_version__.
Proof.
  unfold check_db_settings, bind at 1, getitem.
  destruct (db_settings !! "db_version") as [v|] eqn:Hv; [|done].
  unfold ret at 1. unfold bind at 1.
  destruct (version_refused v) eqn:Href; [done|].
  intros _. apply version_refused_iff in Href. by subst.
Qed.

(** What [main] would migrate never gets past the guard: after a guard that
    returned, the stored version is not below the current one. *)
Lemma migration_is_unreachable db_settings action email w w' db_version :
  check_db_settings db_settings action email w = Ok tt w' ->
  db_settings !! "db_version" = Some db_version ->
  Py.str_lt db_version __db_schema_version__ = false.
Proof.
  intros Hok Hv. apply check_db_settings_passes_only_current in Hok.
  rewrite Hok in Hv. by injection Hv as <-.
Qed.

(** C10. The guard compares the stored version with the bounds as strings:
    it stops the process with code 4 exactly when ['6' <= v <= '6'] fails in
    the lexicographic order, that is, for every [v] other than ['6'].  The
    version ['10'] is below the minimum in that order ([v < min] holds and
    [v > current] does not), and it too ends in exit code 4. *)
Theorem check_db_settings_compares_versions_as_strings
    (db_settings : gmap string string) (action email : string) (w : world)
    (v : string) :
  db_settings !! "db_version" = Some v ->
  ((exists w', check_db_settings db_settings action email w = Exit 4 w') <->
   ~ (String.leb "6" v = true /\ String.leb v "6" = true)) /\
  ((String.leb "6" v = true /\ String.leb v "6" = true) <-> v = "6") /\
  (v = "10" ->
   Py.str_lt v __db_schema_min_version__ = true /\
   Py.str_gt v __db_schema_version__ = false /\
   exists w', check_db_settings db_settings action email w = Exit 4 w').
Proof.
  intros Hv.
  change "6" with __db_schema_min_version__ at 1 3.
  change "6" with __db_schema_version__ at 1 2.
  rewrite <- version_refused_lexicographic.
  split; [|split].
  - split.
    + intros [w' Hw'] Hacc.
      by apply (check_db_settings_accepted _ action email w _ Hv Hacc w').
    + intros Href. apply not_false_is_true in Href.
      destruct (check_db_settings_refused _ action email w _ Hv Href) as (w' & Hw' & _).
      by exists w'.
  - apply version_refused_iff.
  - intros ->. split; [done|]. split; [done|].
    destruct (check_db_settings_refused _ action email w _ Hv eq_refl) as (w' & Hw' & _).
    by exists w'.
Qed.

(** C10, on a ledger that names its schema version [10]. *)
Lemma check_db_settings_version_10 :
  Py.str_lt "10" __db_schema_min_version__ = true /\
  Py.str_gt "10" __db_schema_version__ = false /\
  exists w',
    check_db_settings settings_schema_10 "backup" "user@example.com" blank_world
    = Exit 4 w'.
Proof.
  exact (proj2 (proj2 (check_db_settings_compares_versions_as_strings
                         settings_schema_10 "backup" "user@example.com"
                         blank_world "10" eq_refl)) eq_refl).
Defined.

(** ** The ledger writes of the callbacks *)

Lemma sql_execute_inr stmt w l' :
  stmt (cur (sqlconn w)) = inr l' -> sql_execute stmt w = Ok tt (put_cur l' w).
Proof. intros H. unfold sql_execute. by rewrite H. Qed.

Lemma sql_execute_inl stmt w e :
  stmt (cur (sqlconn w)) = inl e -> sql_execute stmt w = Raise e w.
Proof. intros H. unfold sql_execute. by rewrite H. Qed.

Lemma try_pass_IntegrityError (m : py unit) w w' :
  (m w = Ok tt w' \/ exists s, m w = Raise (IntegrityError s) w') ->
  try_except m pass_IntegrityError w = Ok tt w'.
Proof. intros [H | [s H]]; unfold try_except; by rewrite H. Qed.

(** *** [refresh_message] *)

Lemma refresh_loop num : forall ls w rows,
  labels (cur (sqlconn w)) = Some rows ->
  for_each ls (fun label =>
      try_except (sql_execute (Sql.insert_label num label)) pass_IntegrityError) w
  = Ok tt (put_cur (Sql.with_labels
                      (Some (add_labels (labelidx (cur (sqlconn w))) num ls rows))
                      (cur (sqlconn w))) w).
Proof.
  induction ls as [|l rest IH]; intros w rows Hrows.
  { simpl. unfold ret. f_equal. unfold put_cur, set_sqlconn, Sql.with_labels.
    rewrite <- Hrows. by destruct w as [? ? ? ? ? ? [[] ?] ? ?]. }
  cbn [for_each add_labels]. unfold bind.
  destruct (labelidx (cur (sqlconn w)) && bool_decide ((num, l) ∈ rows)) eqn:Hdup.
  - rewrite (try_pass_IntegrityError _ w w).
    + by apply IH.
    + right. eexists. apply sql_execute_inl. unfold Sql.insert_label.
      by rewrite Hrows, Hdup.
  - erewrite try_pass_IntegrityError.
    2:{ left. apply sql_execute_inr. unfold Sql.insert_label.
        rewrite Hrows, Hdup. reflexivity. }
    erewrite IH; [reflexivity|reflexivity].
Qed.

Lemma put_cur_same w : put_cur (cur (sqlconn w)) w = w.
Proof. by destruct w as [? ? ? ? ? ? [? ?] ? ?]. Qed.

Lemma filter_add_labels idx num : forall ls rows,
  filter (fun x : string * string => x.1 ≠ num) (add_labels idx num ls rows)
  = filter (fun x : string * string => x.1 ≠ num) rows.
Proof.
  induction ls as [|l rest IH]; intros rows; [done|].
  cbn [add_labels]. rewrite IH.
  destruct (idx && _); [done|].
  rewrite filter_app, filter_cons_False, filter_nil, app_nil_r; [done|].
  simpl. by intros H.
Qed.

Lemma NoDup_add_labels num : forall ls rows,
  NoDup rows -> NoDup (add_labels true num ls rows).
Proof.
  induction ls as [|l rest IH]; intros rows Hnd; [done|].
  cbn [add_labels]. apply IH. simpl.
  destruct (bool_decide ((num, l) ∈ rows)) eqn:Hin; [done|].
  apply bool_decide_eq_false in Hin.
  apply NoDup_app. split; [done|]. split; [|apply NoDup_singleton].
  intros x Hx Hx'. apply list_elem_of_singleton in Hx'. by subst.
Qed.

Lemma refresh_message_spec rid r w rows :
  labels (cur (sqlconn w)) = Some rows ->
  refresh_message rid (Some r) None w =
    Ok tt (put_cur (Sql.with_labels
             (Some (add_labels (labelidx (cur (sqlconn w))) (msg_id r)
                      (default [] (msg_labelIds r))
                      (filter (fun x => x.1 ≠ msg_id r) rows)))
             (cur (sqlconn w))) w).
Proof.
  intros Hrows. unfold refresh_message, bind.
  erewrite sql_execute_inr; [|unfold Sql.delete_labels; rewrite Hrows; reflexivity].
  erewrite refresh_loop; reflexivity.
Qed.

Lemma refresh_message_twice rid r w rows :
  labels (cur (sqlconn w)) = Some rows ->
  exists w1,
    refresh_message rid (Some r) None w = Ok tt w1 /\
    refresh_message rid (Some r) None w1 = Ok tt w1 /\
    messages (cur (sqlconn w1)) = messages (cur (sqlconn w)) /\
    restored_messages (cur (sqlconn w1)) = restored_messages (cur (sqlconn w)) /\
    labelidx (cur (sqlconn w1)) = labelidx (cur (sqlconn w)) /\
    restored_key (cur (sqlconn w1)) = restored_key (cur (sqlconn w)) /\
    exists rows1, labels (cur (sqlconn w1)) = Some rows1 /\
      (labelidx (cur (sqlconn w)) = true -> NoDup rows -> NoDup rows1).
Proof.
  intros Hrows. eexists. split; [by apply refresh_message_spec|].
  split.
  - erewrite refresh_message_spec; [|reflexivity].
    cbn. rewrite filter_add_labels, list_filter_filter.
    f_equal. unfold put_cur, set_sqlconn, Sql.with_labels. cbn. do 5 f_equal.
    apply list_filter_iff. tauto.
  - cbn. repeat split. eexists. split; [reflexivity|].
    intros -> Hnd. apply NoDup_add_labels. by apply NoDup_filter.
Qed.

(** *** [backup_message] and [backup_chat] *)

Lemma backup_loop num : forall ls w rows,
  labels (cur (sqlconn w)) = Some rows ->
  exists rows',
    let w' := put_cur (Sql.with_labels (Some rows') (cur (sqlconn w))) w in
    (for_each ls (fun label => sql_execute (Sql.insert_label num label)) w = Ok tt w'
     \/ exists s, for_each ls (fun label => sql_execute (Sql.insert_label num label)) w
                  = Raise (IntegrityError s) w') /\
    (labelidx (cur (sqlconn w)) = true -> NoDup rows -> NoDup rows').
Proof.
  induction ls as [|l rest IH]; intros w rows Hrows.
  { exists rows. split; [|done]. left. simpl. unfold ret. f_equal.
    rewrite <- Hrows. unfold put_cur, set_sqlconn, Sql.with_labels.
    by destruct w as [? ? ? ? ? ? [[] ?] ? ?]. }
  cbn [for_each]. unfold bind.
  destruct (labelidx (cur (sqlconn w)) && bool_decide ((num, l) ∈ rows)) eqn:Hdup.
  - exists rows. split; [|done]. right. eexists.
    erewrite sql_execute_inl; [|unfold Sql.insert_label; rewrite Hrows, Hdup; reflexivity].
    f_equal. rewrite <- Hrows. unfold put_cur, set_sqlconn, Sql.with_labels.
    by destruct w as [? ? ? ? ? ? [[] ?] ? ?].
  - erewrite sql_execute_inr; [|unfold Sql.insert_label; rewrite Hrows, Hdup; reflexivity].
    edestruct (IH (put_cur (Sql.with_labels (Some (rows ++ [(num, l)])) (cur (sqlconn w))) w))
      as (rows' & Hrun & Hnd); [reflexivity|].
    exists rows'. split; [exact Hrun|].
    intros Hidx Hrows_nd. apply Hnd; [exact Hidx|].
    rewrite Hidx in Hdup. simpl in Hdup. apply bool_decide_eq_false in Hdup.
    apply NoDup_app. split; [done|]. split; [|apply NoDup_singleton].
    intros x Hx Hx'. apply list_elem_of_singleton in Hx'. by subst.
Qed.

(** The [try] block the two callbacks share: it ends without an exception,
    with the message recorded; when the message was recorded already it
    changes nothing. *)
Lemma record_message_spec num filename date ls w rows lrows :
  messages (cur (sqlconn w)) = Some rows ->
  labels (cur (sqlconn w)) = Some lrows ->
  exists rows1 lrows1,
    try_except
      (sql_execute (Sql.insert_message num filename date) ;;;
       sql_execute (Sql.delete_labels num) ;;;
       for_each ls (fun label => sql_execute (Sql.insert_label num label)))%py
      pass_IntegrityError w
    = Ok tt (put_cur (Sql.with_labels (Some lrows1)
                        (Sql.with_messages (Some rows1) (cur (sqlconn w)))) w) /\
    num ∈ Sql.message_num <$> rows1 /\
    (num ∈ Sql.message_num <$> rows -> rows1 = rows /\ lrows1 = lrows) /\
    (NoDup (Sql.message_num <$> rows) -> NoDup (Sql.message_num <$> rows1)) /\
    (labelidx (cur (sqlconn w)) = true -> NoDup lrows -> NoDup lrows1).
Proof.
  intros Hrows Hlrows.
  destruct (decide (num ∈ Sql.message_num <$> rows)) as [Hin|Hnin].
  - exists rows, lrows. split; [|done].
    rewrite (try_pass_IntegrityError _ w w).
    + f_equal. unfold put_cur, set_sqlconn, Sql.with_labels, Sql.with_messages.
      rewrite <- Hrows, <- Hlrows.
      by destruct w as [? ? ? ? ? ? [[] ?] ? ?].
    + right. eexists. unfold bind. erewrite sql_execute_inl; [reflexivity|].
      unfold Sql.insert_message. rewrite Hrows. by rewrite decide_True.
  - destruct (backup_loop num ls
                (put_cur (Sql.with_labels (Some (filter (fun x => x.1 ≠ num) lrows))
                            (Sql.with_messages (Some (rows ++ [(num, filename, date)]))
                               (cur (sqlconn w)))) w)
                (filter (fun x => x.1 ≠ num) lrows) eq_refl)
      as (lrows1 & Hrun & Hnd).
    exists (rows ++ [(num, filename, date)]), lrows1.
    split; [|split; [|split; [|split]]].
    + apply try_pass_IntegrityError. unfold bind.
      erewrite sql_execute_inr;
        [|unfold Sql.insert_message; rewrite Hrows;
          rewrite decide_False by done; reflexivity].
      erewrite sql_execute_inr;
        [|unfold Sql.delete_labels; cbn; rewrite Hlrows; reflexivity].
      destruct Hrun as [Hrun | [s Hrun]]; [left|right; exists s]; exact Hrun.
    + rewrite fmap_app. apply elem_of_app. right. by apply list_elem_of_singleton.
    + done.
    + intros Hnd'. rewrite fmap_app. apply NoDup_app. split; [done|].
      split; [|apply NoDup_singleton].
      intros x Hx Hx'. apply list_elem_of_singleton in Hx'. by subst.
    + intros Hidx Hnd'. apply Hnd; [exact Hidx|]. by apply NoDup_filter.
Qed.

Lemma backup_message_unfold lf rid r w :
  backup_message lf rid (Some r) None w =
    try_except
      (sql_execute (Sql.insert_message (msg_id r) (backup_filename rid r) (message_date r)) ;;;
       sql_execute (Sql.delete_labels (msg_id r)) ;;;
       for_each (default [] (msg_labelIds r))
         (fun label => sql_execute (Sql.insert_label (msg_id r) label)))%py
      pass_IntegrityError (message_stored lf rid r w).
Proof. reflexivity. Qed.

Lemma backup_chat_unfold lf rid r w :
  backup_chat lf rid (Some r) None w =
    try_except
      (sql_execute (Sql.insert_message (msg_id r) (chat_filename r) (message_date r)) ;;;
       sql_execute (Sql.delete_labels (msg_id r)) ;;;
       for_each (default [] (msg_labelIds r))
         (fun label => sql_execute (Sql.insert_label (msg_id r) label)))%py
      pass_IntegrityError (chat_stored lf r w).
Proof. reflexivity. Qed.

(** A callback that stores the message with [store], which leaves the
    connection alone, and then records it, run twice. *)
Lemma record_message_twice (callback : py unit) (store : world -> world)
    num filename date ls w :
  (forall w0, sqlconn (store w0) = sqlconn w0) ->
  (forall w0, files (store (store w0)) = files (store w0)) ->
  (forall w0 l, store (put_cur l w0) = put_cur l (store w0)) ->
  (forall w0, callback w0 =
     try_except
       (sql_execute (Sql.insert_message num filename date) ;;;
        sql_execute (Sql.delete_labels num) ;;;
        for_each ls (fun label => sql_execute (Sql.insert_label num label)))%py
       pass_IntegrityError (store w0)) ->
  is_Some (messages (cur (sqlconn w))) ->
  is_Some (labels (cur (sqlconn w))) ->
  exists w1 w2,
    callback w = Ok tt w1 /\ callback w1 = Ok tt w2 /\
    sqlconn w2 = sqlconn w1 /\ files w2 = files w1 /\
    (unique_rows (cur (sqlconn w)) -> unique_rows (cur (sqlconn w1))).
Proof.
  intros Hconn Hfiles Hcomm Hcb [rows Hrows] [lrows Hlrows].
  destruct (record_message_spec num filename date ls (store w) rows lrows)
    as (rows1 & lrows1 & Hrun1 & Hin1 & _ & Hnd1 & Hndl1);
    [by rewrite Hconn|by rewrite Hconn|].
  rewrite Hconn in Hrun1, Hndl1.
  set (l1 := Sql.with_labels (Some lrows1)
               (Sql.with_messages (Some rows1) (cur (sqlconn w)))) in *.
  destruct (record_message_spec num filename date ls
              (store (put_cur l1 (store w))) rows1 lrows1)
    as (rows2 & lrows2 & Hrun2 & _ & Hsame & _);
    [by rewrite Hconn|by rewrite Hconn|].
  destruct (Hsame Hin1) as [-> ->]. rewrite Hconn in Hrun2.
  exists (put_cur l1 (store w)). eexists.
  split; [by rewrite Hcb|]. split; [rewrite Hcb; exact Hrun2|].
  split; [|split].
  - cbn. by rewrite Hconn.
  - cbn. rewrite Hcomm. cbn. by rewrite Hfiles.
  - intros (Hm & Hl & Hr). split; [|split]; cbn.
    + intros ? [= <-]. by apply Hnd1, Hm.
    + intros Hidx ? [= <-]. apply Hndl1; [done|]. by apply Hl.
    + exact Hr.
Qed.

Lemma backup_message_twice lf rid r w :
  is_Some (messages (cur (sqlconn w))) ->
  is_Some (labels (cur (sqlconn w))) ->
  exists w1 w2,
    backup_message lf rid (Some r) None w = Ok tt w1 /\
    backup_message lf rid (Some r) None w1 = Ok tt w2 /\
    sqlconn w2 = sqlconn w1 /\ files w2 = files w1 /\
    (unique_rows (cur (sqlconn w)) -> unique_rows (cur (sqlconn w1))).
Proof.
  apply (record_message_twice _ (message_stored lf rid r)
           (msg_id r) (backup_filename rid r) (message_date r)
           (default [] (msg_labelIds r))).
  - done.
  - intros w0. apply insert_insert_eq.
  - done.
  - intros w0. apply backup_message_unfold.
Qed.

Lemma backup_chat_twice lf rid r w :
  is_Some (messages (cur (sqlconn w))) ->
  is_Some (labels (cur (sqlconn w))) ->
  exists w1 w2,
    backup_chat lf rid (Some r) None w = Ok tt w1 /\
    backup_chat lf rid (Some r) None w1 = Ok tt w2 /\
    sqlconn w2 = sqlconn w1 /\ files w2 = files w1 /\
    (unique_rows (cur (sqlconn w)) -> unique_rows (cur (sqlconn w1))).
Proof.
  apply (record_message_twice _ (chat_stored lf r)
           (msg_id r) (chat_filename r) (message_date r)
           (default [] (msg_labelIds r))).
  - done.
  - intros w0. apply insert_insert_eq.
  - done.
  - intros w0. apply backup_chat_unfold.
Qed.

(** *** [restored_message] *)

Lemma restored_message_twice rid resp w :
  is_Some (restored_messages (cur (sqlconn w))) ->
  restored_key (cur (sqlconn w)) = true ->
  exists w1,
    restored_message rid resp None w = Ok tt w1 /\
    restored_message rid resp None w1 = Ok tt w1 /\
    (unique_rows (cur (sqlconn w)) -> unique_rows (cur (sqlconn w1))).
Proof.
  intros [rows Hrows] Hkey. unfold restored_message.
  destruct (bool_decide (rid ∈ rows)) eqn:Hin.
  - exists w. assert (Hrun : try_except (sql_execute (Sql.insert_restored rid))
                                pass_IntegrityError w = Ok tt w).
    { apply try_pass_IntegrityError. right. eexists. apply sql_execute_inl.
      unfold Sql.insert_restored. rewrite Hrows, Hkey, Hin. reflexivity. }
    by rewrite Hrun.
  - eexists. split; [|split].
    + apply try_pass_IntegrityError. left. apply sql_execute_inr.
      unfold Sql.insert_restored. rewrite Hrows, Hkey, Hin. reflexivity.
    + apply try_pass_IntegrityError. right. eexists.
      erewrite sql_execute_inl.
      * f_equal.
      * unfold Sql.insert_restored. cbn.
        rewrite bool_decide_eq_true_2; [reflexivity|].
        apply elem_of_app. right. by apply list_elem_of_singleton.
    + intros (Hm & Hl & Hr). split; [|split]; cbn; [done|done|].
      intros _ ? [= <-]. apply bool_decide_eq_false in Hin.
      apply NoDup_app. split; [by apply Hr|]. split; [|apply NoDup_singleton].
      intros x Hx Hx'. apply list_elem_of_singleton in Hx'. by subst.
Qed.



(** ** Batches with failed items *)

Lemma same_data_refl w : same_data w w.
Proof. by repeat split. Qed.

Lemma same_data_sym w w' : same_data w w' -> same_data w' w.
Proof. unfold same_data. intuition congruence. Qed.

Lemma same_data_trans w1 w2 w3 : same_data w1 w2 -> same_data w2 w3 -> same_data w1 w3.
Proof. unfold same_data. intuition congruence. Qed.

Lemma trace_blind_ret {A} (a : A) : trace_blind (ret a).
Proof. intros w w' H. by split. Qed.

Lemma trace_blind_raise {A} e : trace_blind (@raise world A e).
Proof. intros w w' H. by split. Qed.

Lemma trace_blind_bind {A B} (m : py A) (k : A -> py B) :
  trace_blind m -> (forall a, trace_blind (k a)) -> trace_blind (bind m k).
Proof.
  intros Hm Hk w w' H. unfold bind. specialize (Hm w w' H).
  destruct (m w), (m w'); simpl in Hm; try done.
  destruct Hm as [-> Hm]. by apply Hk.
Qed.

Lemma trace_blind_try {A} (m : py A) h :
  trace_blind m -> handler_blind h -> trace_blind (try_except m h).
Proof.
  intros Hm Hh w w' H. unfold try_except. specialize (Hm w w' H).
  destruct (m w), (m w'); simpl in Hm; try done.
  destruct Hm as [-> Hm]. specialize (Hh e0). destruct (h e0); [by apply Hh|done].
Qed.

Lemma trace_blind_for_each {A} (l : list A) (body : A -> py unit) :
  (forall x, trace_blind (body x)) -> trace_blind (for_each l body).
Proof.
  intros Hb. induction l as [|x l IH]; [apply trace_blind_ret|].
  simpl. apply trace_blind_bind; [apply Hb|]. by intros _.
Qed.

Lemma trace_blind_emit e : trace_blind (emit e).
Proof. intros w w' H. split; [done|]. unfold same_data in *. simpl. tauto. Qed.

Lemma trace_blind_sql_execute stmt : trace_blind (sql_execute stmt).
Proof.
  intros w w' H. unfold sql_execute.
  assert (sqlconn w = sqlconn w') as <- by (unfold same_data in H; tauto).
  destruct (stmt (cur (sqlconn w))); simpl; (split; [done|]);
    unfold same_data in *; simpl; intuition congruence.
Qed.

Lemma trace_blind_pass : handler_blind pass_IntegrityError.
Proof. intros e. destruct e; simpl; first [exact I | apply trace_blind_ret]. Qed.

Lemma trace_blind_count : trace_blind (fun w => Ok tt (set_backup_count S w)).
Proof.
  intros w w' H. split; [done|]. unfold same_data in *. simpl.
  intuition congruence.
Qed.

Lemma trace_blind_write_file path data : trace_blind (write_file path data).
Proof.
  intros w w' H. split; [done|]. unfold same_data in *. simpl.
  intuition congruence.
Qed.

Lemma trace_blind_print text : trace_blind (print text).
Proof. apply trace_blind_emit. Qed.

Create HintDb blind.

#[local] Hint Resolve trace_blind_ret trace_blind_raise trace_blind_print
  trace_blind_sql_execute trace_blind_pass trace_blind_count
  trace_blind_write_file trace_blind_bind trace_blind_try
  trace_blind_for_each : blind.

Lemma trace_blind_refresh_message rid resp exc :
  trace_blind (refresh_message rid resp exc).
Proof. unfold refresh_message. destruct exc, resp; eauto 8 with blind. Qed.

Lemma trace_blind_restored_message rid resp exc :
  trace_blind (restored_message rid resp exc).
Proof. unfold restored_message. destruct exc; eauto with blind. Qed.

Lemma trace_blind_purged_message rid resp exc :
  trace_blind (purged_message rid resp exc).
Proof. unfold purged_message. auto with blind. Qed.

Lemma trace_blind_backup_chat lf rid resp exc :
  trace_blind (backup_chat lf rid resp exc).
Proof. unfold backup_chat. destruct exc, resp; eauto 10 with blind. Qed.

Lemma trace_blind_backup_message lf rid resp exc :
  trace_blind (backup_message lf rid resp exc).
Proof. unfold backup_message. destruct exc, resp; eauto 10 with blind. Qed.

Ltac solve_callback :=
  split;
  [ first [ apply trace_blind_backup_message | apply trace_blind_backup_chat
          | apply trace_blind_refresh_message | apply trace_blind_restored_message
          | apply trace_blind_purged_message ]
  | intros; eexists; reflexivity ].

Lemma run_batch_without_failed cb :
  (forall rid resp exc, trace_blind (cb rid resp exc)) ->
  (forall rid resp e w, exists w', cb rid resp (Some e) w = Ok tt w' /\ same_data w w') ->
  forall items w w', same_data w w' ->
    same_outcome (run_batch cb items w) (run_batch cb (filter succeeded items) w').
Proof.
  intros Hblind Hfail. unfold run_batch.
  induction items as [|[[rid resp] [e|]] items IH]; intros w w' H.
  - by split.
  - rewrite filter_cons_False by (unfold succeeded; simpl; done).
    cbn [for_each]. unfold bind. simpl.
    destruct (Hfail rid resp e w) as (w1 & -> & H1).
    apply IH. eapply same_data_trans; [apply same_data_sym, H1|exact H].
  - rewrite filter_cons_True by done.
    cbn [for_each]. unfold bind. simpl.
    specialize (Hblind rid resp None w w' H).
    destruct (cb rid resp None w), (cb rid resp None w'); simpl in Hblind; try done.
    destruct Hblind as [_ Hblind]. by apply IH.
Qed.

(** ** Self-repair of the ledger *)

Lemma filter_none {A} (P : A -> Prop) `{forall x, Decision (P x)} (l : list A) :
  (forall x, x ∈ l -> ~ P x) -> filter P l = [].
Proof.
  induction l as [|x l IH]; intros Hall; [done|].
  rewrite filter_cons_False by (apply Hall; left).
  apply IH. intros y Hy. apply Hall. by right.
Qed.

Lemma filter_key_unique (rows : list (string * string * Q)) num f d :
  NoDup (Sql.message_num <$> rows) -> (num, f, d) ∈ rows ->
  filter (fun r => Sql.message_num r = num) rows = [(num, f, d)].
Proof.
  induction rows as [|x rows IH]; intros Hnd Hin; [by apply elem_of_nil in Hin|].
  rewrite fmap_cons in Hnd. apply NoDup_cons in Hnd as [Hx Hnd].
  apply elem_of_cons in Hin as [<-|Hin].
  - rewrite filter_cons_True by done. f_equal.
    apply filter_none. intros y Hy Heq. apply Hx.
    change (Sql.message_num (num, f, d)) with num. rewrite <- Heq.
    by apply list_elem_of_fmap_2.
  - rewrite filter_cons_False; [by apply IH|].
    intros Heq. apply Hx. rewrite Heq.
    by apply (list_elem_of_fmap_2 Sql.message_num) in Hin.
Qed.

Lemma forget_message_spec num w rows lrows urows :
  messages (cur (sqlconn w)) = Some rows ->
  labels (cur (sqlconn w)) = Some lrows ->
  uids (cur (sqlconn w)) = Some urows ->
  forget_message num w =
    Ok tt (put_cur
             (Sql.with_uids (Some (filter (fun r => r.1 ≠ num) urows))
                (Sql.with_labels (Some (filter (fun r => r.1 ≠ num) lrows))
                   (Sql.with_messages
                      (Some (filter (fun r => Sql.message_num r ≠ num) rows))
                      (cur (sqlconn w))))) w).
Proof.
  intros Hm Hl Hu. unfold forget_message, bind.
  erewrite sql_execute_inr; [|unfold Sql.delete_message; rewrite Hm; reflexivity].
  erewrite sql_execute_inr; [|unfold Sql.delete_labels; cbn; rewrite Hl; reflexivity].
  erewrite sql_execute_inr; [|unfold Sql.delete_uids; cbn; rewrite Hu; reflexivity].
  reflexivity.
Qed.

(** C8. Let the ledger hold the record of a message, with unique message
    numbers.  When the file the record names is not in the backup folder,
    the lookup returns [False], having deleted the rows of that message
    from [messages], [labels] and [uids] and committed; nothing else
    changed, and a further lookup finds no record and returns [False]
    again.  When the file is there, the lookup returns [True] and changes
    nothing. *)
Theorem message_is_backed_up_self_repairs
    (message_num backup_folder filename : string) (date : Q) (w : world)
    (rows : list (string * string * Q)) (lrows urows : list (string * string)) :
  messages (cur (sqlconn w)) = Some rows ->
  labels (cur (sqlconn w)) = Some lrows ->
  uids (cur (sqlconn w)) = Some urows ->
  NoDup (Sql.message_num <$> rows) ->
  (message_num, filename, date) ∈ rows ->
  (files w !! Py.path_join backup_folder filename = None ->
   exists w',
     message_is_backed_up message_num backup_folder w = Ok false w' /\
     messages (cur (sqlconn w')) =
       Some (filter (fun r => Sql.message_num r ≠ message_num) rows) /\
     labels (cur (sqlconn w')) = Some (filter (fun r => r.1 ≠ message_num) lrows) /\
     uids (cur (sqlconn w')) = Some (filter (fun r => r.1 ≠ message_num) urows) /\
     settings (cur (sqlconn w')) = settings (cur (sqlconn w)) /\
     restored_messages (cur (sqlconn w')) = restored_messages (cur (sqlconn w)) /\
     committed (sqlconn w') = cur (sqlconn w') /\
     files w' = files w /\
     message_is_backed_up message_num backup_folder w' = Ok false w') /\
  (is_Some (files w !! Py.path_join backup_folder filename) ->
   message_is_backed_up message_num backup_folder w = Ok true w).
Proof.
  intros Hm Hl Hu Hnd Hin.
  assert (Hsel : Sql.select_filename message_num (cur (sqlconn w)) = inr [filename]).
  { unfold Sql.select_filename. rewrite Hm.
    by rewrite (filter_key_unique rows message_num filename date Hnd Hin). }
  split.
  - intros Hgone. eexists. split.
    { unfold message_is_backed_up, bind at 1, sql_query. rewrite Hsel.
      unfold bind at 1, isfile. rewrite Hgone.
      rewrite bool_decide_eq_false_2 by (by intros [? ?]).
      unfold bind at 1, print, emit. unfold bind at 1.
      erewrite forget_message_spec; [|exact Hm|exact Hl|exact Hu].
      reflexivity. }
    do 7 (split; [reflexivity|]).
    unfold message_is_backed_up, bind at 1, sql_query, Sql.select_filename. cbn.
    rewrite filter_none; [reflexivity|].
    intros x Hx Heq. apply list_elem_of_filter in Hx as [Hx _]. done.
  - intros Hthere. unfold message_is_backed_up, bind at 1, sql_query. rewrite Hsel.
    unfold bind, isfile. by rewrite bool_decide_eq_true_2.
Qed.

(** C8, on a ledger that records [m1] while [m1.eml] is gone. *)
Lemma message_is_backed_up_m1_lost :
  exists w',
    message_is_backed_up "m1" "GYB-GMail-Backup" (connect ledger_m1_lost blank_world)
      = Ok false w' /\
    messages (cur (sqlconn w')) = Some [] /\
    labels (cur (sqlconn w')) = Some [] /\
    uids (cur (sqlconn w')) = Some [] /\
    committed (sqlconn w') = cur (sqlconn w').
Proof.
  destruct (proj1 (message_is_backed_up_self_repairs
              "m1" "GYB-GMail-Backup" "m1.eml" 1700000000%Q
              (connect ledger_m1_lost blank_world)
              [("m1", "m1.eml", 1700000000%Q)] [("m1", "INBOX")] [("m1", "m1")]
              eq_refl eq_refl eq_refl
              ltac:(apply NoDup_singleton)
              ltac:(apply list_elem_of_singleton; reflexivity))
            eq_refl)
    as (w' & Hrun & Hm & Hl & Hu & _ & _ & Hc & _).
  exists w'. split; [exact Hrun|]. split; [exact Hm|]. split; [exact Hl|].
  split; [exact Hu|exact Hc].
Defined.

(** The same repair, done for the whole ledger by [getMessageIDs]: the
    records whose file is lost go, with their labels and uids, and the
    others stay. *)
Lemma filter_all {A} (P : A -> Prop) `{forall x, Decision (P x)} (l : list A) :
  (forall x, x ∈ l -> P x) -> filter P l = l.
Proof.
  induction l as [|x l IH]; intros Hall; [done|].
  rewrite filter_cons_True by (apply Hall; left).
  f_equal. apply IH. intros y Hy. apply Hall. by right.
Qed.

Lemma getMessageIDs_loop folder fs : forall results w rows lrows urows,
  files w = fs ->
  messages (cur (sqlconn w)) = Some rows ->
  labels (cur (sqlconn w)) = Some lrows ->
  uids (cur (sqlconn w)) = Some urows ->
  for_each results (fun x =>
      present <- isfile (Py.path_join folder x.2) ;;
      if negb present then forget_message x.1 else ret tt)%py w
  = Ok tt (put_cur
             (Sql.with_uids (Some (filter (fun r => r.1 ∉ lost_in folder fs results) urows))
                (Sql.with_labels (Some (filter (fun r => r.1 ∉ lost_in folder fs results) lrows))
                   (Sql.with_messages
                      (Some (filter (fun r => Sql.message_num r ∉ lost_in folder fs results) rows))
                      (cur (sqlconn w))))) w).
Proof.
  induction results as [|[num fname] results IH]; intros w rows lrows urows Hfs Hm Hl Hu.
  { simpl. unfold ret. f_equal.
    rewrite !filter_all by (intros; apply not_elem_of_nil).
    rewrite <- Hm, <- Hl, <- Hu.
    unfold put_cur, set_sqlconn, Sql.with_uids, Sql.with_labels, Sql.with_messages.
    by destruct w as [? ? ? ? ? ? [[] ?] ? ?]. }
  cbn [for_each]. unfold bind at 1. cbn [snd fst].
  assert (Hbody :
    (present <- isfile (Py.path_join folder fname) ;;
     if negb present then forget_message num else ret tt)%py w
    = match files w !! Py.path_join folder fname with
      | Some _ => Ok tt w
      | None => forget_message num w
      end).
  { unfold bind, isfile. destruct (files w !! Py.path_join folder fname); [done|].
    by rewrite bool_decide_eq_false_2 by (by intros [? ?]). }
  rewrite Hbody. clear Hbody.
  destruct (files w !! Py.path_join folder fname) as [data|] eqn:Hfile.
  - rewrite (IH w rows lrows urows Hfs Hm Hl Hu).
    unfold lost_in. rewrite filter_cons_False; [done|].
    cbn. rewrite <- Hfs, Hfile. done.
  - rewrite (forget_message_spec num w rows lrows urows Hm Hl Hu).
    erewrite IH; [|exact Hfs|reflexivity|reflexivity|reflexivity].
    unfold lost_in. rewrite filter_cons_True by (cbn; by rewrite <- Hfs).
    rewrite fmap_cons. cbn [fst].
    rewrite !list_filter_filter.
    f_equal. unfold put_cur, set_sqlconn, Sql.with_uids, Sql.with_labels, Sql.with_messages.
    cbn. do 3 f_equal; [f_equal| |]; f_equal; apply list_filter_iff; intros r;
      rewrite not_elem_of_cons; tauto.
Qed.

Lemma getMessageIDs_spec folder w rows lrows urows :
  messages (cur (sqlconn w)) = Some rows ->
  labels (cur (sqlconn w)) = Some lrows ->
  uids (cur (sqlconn w)) = Some urows ->
  let lost := lost_in folder (files w)
                ((fun r => (Sql.message_num r, Sql.message_filename r)) <$> rows) in
  exists w',
    getMessageIDs folder w = Ok tt w' /\
    messages (cur (sqlconn w')) = Some (filter (fun r => Sql.message_num r ∉ lost) rows) /\
    labels (cur (sqlconn w')) = Some (filter (fun r => r.1 ∉ lost) lrows) /\
    uids (cur (sqlconn w')) = Some (filter (fun r => r.1 ∉ lost) urows) /\
    committed (sqlconn w') = cur (sqlconn w') /\
    files w' = files w.
Proof.
  intros Hm Hl Hu lost. eexists. split.
  - unfold getMessageIDs, bind at 1, sql_query, Sql.select_messages. rewrite Hm.
    unfold bind at 1.
    rewrite (getMessageIDs_loop folder (files w) _ w rows lrows urows eq_refl Hm Hl Hu).
    reflexivity.
  - by repeat split.
Qed.

(** ** A new ledger *)

(** C2, as the code has it. [initializeDB] on a database file that was
    just created returns, committed, with exactly the tables [settings]
    (holding the account and the schema version), [messages], [labels] with
    its unique index and [uids]; [restored_messages] is not among them.  The
    writes of [backup_message], [backup_chat] and [refresh_message] to the
    new ledger find their tables. *)
Theorem initializeDB_creates_four_tables (email : string) (w : world) :
  initializeDB email (set_sqlconn (fun _ => fresh_connection) w)
    = Ok tt (connect (initial_ledger email) w) /\
  (forall local_folder request_id r,
     exists w', backup_message local_folder request_id (Some r) None
                  (connect (initial_ledger email) w) = Ok tt w') /\
  (forall local_folder request_id r,
     exists w', backup_chat local_folder request_id (Some r) None
                  (connect (initial_ledger email) w) = Ok tt w') /\
  (forall request_id r,
     exists w', refresh_message request_id (Some r) None
                  (connect (initial_ledger email) w) = Ok tt w').
Proof.
  split; [reflexivity|]. split; [|split].
  - intros lf rid r.
    destruct (backup_message_twice lf rid r (connect (initial_ledger email) w))
      as (w1 & _ & Hrun & _); [by eexists|by eexists|].
    by exists w1.
  - intros lf rid r.
    destruct (backup_chat_twice lf rid r (connect (initial_ledger email) w))
      as (w1 & _ & Hrun & _); [by eexists|by eexists|].
    by exists w1.
  - intros rid r. eexists. by apply (refresh_message_spec rid r _ []).
Qed.

(** C2 as stated fails: after [initializeDB] the table [restored_messages]
    does not exist, and the insert of [restored_message] raises
    [OperationalError]. *)
Lemma initializeDB_lacks_restored_messages :
  restored_messages
    (cur (sqlconn (world_of (initializeDB "user@example.com" blank_world)))) = None /\
  exists w',
    (initializeDB "user@example.com" ;;;
     restored_message "m1" (Some message_m1) None)%py blank_world
    = Raise (OperationalError "no such table: restored_messages") w'.
Proof. split; [reflexivity|]. eexists. reflexivity. Qed.

(** ** The schema guard at work *)

Lemma get_db_settings_spec (w : world) (rows : list (string * string)) :
  settings (cur (sqlconn w)) = Some rows ->
  get_db_settings w = Ok (dict_of_rows rows) w.
Proof.
  intros H. unfold get_db_settings, bind, sql_query, Sql.select_settings.
  by rewrite H.
Qed.

(** C3, as the code behaves. Opening an existing ledger whose stored
    version is below the minimum ends the process with exit code 4 whatever
    the action, a backup included, and leaves the ledger as it was: the
    guard does not look at the action, and the migration of [main] is never
    reached. *)
Theorem open_ledger_refuses_every_action_below_minimum
    (action email local_folder : string) (w : world)
    (rows : list (string * string)) (db_version : string) :
  settings (cur (sqlconn w)) = Some rows ->
  dict_of_rows rows !! "db_version" = Some db_version ->
  Py.str_lt db_version __db_schema_min_version__ = true ->
  exists w',
    open_ledger false action email local_folder w = Exit 4 w' /\
    sqlconn w' = sqlconn w.
Proof.
  intros Hrows Hv Hlt. unfold open_ledger, bind at 1, ret at 1.
  unfold bind at 1. rewrite (get_db_settings_spec w rows Hrows).
  unfold bind at 1.
  destruct (check_db_settings_refused (dict_of_rows rows) action email w
              db_version Hv) as (w' & -> & Hsame).
  { unfold version_refused. by rewrite Hlt. }
  by exists w'.
Qed.

(** C3, at a backup of a ledger of schema version 5. *)
Lemma open_ledger_refuses_backup_of_schema_5 :
  exists w',
    open_ledger false "backup" "user@example.com" "GYB-GMail-Backup"
      (connect ledger_schema_5 blank_world) = Exit 4 w' /\
    sqlconn w' = sqlconn (connect ledger_schema_5 blank_world).
Proof.
  exact (open_ledger_refuses_every_action_below_minimum
           "backup" "user@example.com" "GYB-GMail-Backup"
           (connect ledger_schema_5 blank_world)
           [("email_address", "user@example.com"); ("db_version", "5")] "5"
           eq_refl eq_refl eq_refl).
Defined.

(** ** Batches *)



(** * Further properties *)

(** ** The call executor as a whole *)

Lemma final_attempt_shift (passed : nat -> bool) (more i : nat) :
  final_attempt passed more (S i) = S (final_attempt (fun k => passed (S k)) more i).
Proof.
  revert i. induction more as [|more IH]; intros i; simpl; [done|].
  destruct (passed (S i)); [apply IH|done].
Qed.

Lemma final_attempt_ext (f g : nat -> bool) (more i : nat) :
  (forall k, f k = g k) -> final_attempt f more i = final_attempt g more i.
Proof.
  intros H. revert i. induction more as [|more IH]; intros i; simpl; [done|].
  rewrite H. destruct (g i); [apply IH|done].
Qed.

Lemma final_attempt_bound (passed : nat -> bool) (more i : nat) :
  (i <= final_attempt passed more i <= i + more)%nat.
Proof.
  revert i. induction more as [|more IH]; intros i; simpl; [lia|].
  destruct (passed i); [specialize (IH (S i))|]; lia.
Qed.

Lemma backoff_returns n r reason w :
  exists w', _backoff n r reason w = Ok tt w' /\
    remote w' = remote w /\ attempts w' = attempts w.
Proof.
  destruct (backoff_spec n r reason w) as (w' & H & Hr & _ & Ha & _). eauto.
Qed.

Section Verdict.

Variables (req : request) (soft_errors : bool).
Variables (throw_reasons retry_reasons : list string).

Lemma callGAPI_for_step (n : Z) (rest : list Z) (w : world) :
  let w1 := set_attempts S (set_trace (fun t => t ++ [Execute req]) w) in
  let again reason :=
    bind (_backoff n retries reason)
      (fun _ => callGAPI_for rest req soft_errors throw_reasons retry_reasons) w1 in
  let said e := set_trace (fun t => t ++ [e]) w1 in
  callGAPI_for (n :: rest) req soft_errors throw_reasons retry_reasons w =
  match remote w (attempts w) req with
  | Returns r => Ok (Some r) w1
  | HttpFails code reason message =>
      if Py.mem reason throw_reasons then Raise (HttpError code reason message) w1
      else if (negb (n =? retries)
               && Py.mem reason (builtin_retry_reasons ++ retry_reasons))%bool
      then again reason
      else if soft_errors
      then Ok None (said (Stderr ("Soft error: " +:+ reason +:+ " - " +:+ message +:+ Py.nl)))
      else Exit 5 (said (Stderr ("Error: " +:+ reason +:+ " - " +:+ message +:+ Py.nl)))
  | RefreshFails e =>
      Exit 403 (said (Stderr ("Error: Authentication Token Error - " +:+ e)))
  | CertificateValidationUnsupported =>
      Exit 8 (said (Stdout (ssl_message +:+ Py.nl)))
  | NetworkFails e =>
      if negb (n =? retries) then again e
      else Exit 4 (said (Stderr (Py.nl +:+ "ERROR: " +:+ e +:+ Py.nl)))
  | OtherFails e => Raise (OtherError e) w1
  end.
Proof.
  cbn zeta. cbn [callGAPI_for]. unfold bind at 1. unfold execute at 1.
  destruct (remote w (attempts w) req) as [r|code reason message|e| |e|e]; try reflexivity.
  - destruct (Py.mem reason throw_reasons); [reflexivity|].
    destruct (negb (n =? retries) && _)%bool; [reflexivity|].
    destruct soft_errors; reflexivity.
  - destruct (negb (n =? retries)); reflexivity.
Qed.

Lemma callGAPI_for_verdict : forall (pre : list Z) (w : world),
  Forall (fun n => n <> retries) pre ->
  let r := callGAPI_for (pre ++ [retries]) req soft_errors throw_reasons retry_reasons w in
  let j := final_attempt
             (fun i => retried throw_reasons retry_reasons (remote w (attempts w + i)%nat req))
             (length pre) 0 in
  outcome_of r = verdict_on soft_errors throw_reasons (remote w (attempts w + j)%nat req) /\
  attempts (world_of r) = (attempts w + S j)%nat /\
  remote (world_of r) = remote w.
Proof.
  induction pre as [|n pre IH]; intros w Hpre; cbn zeta.
  - change ([] ++ [retries]) with [retries]. rewrite callGAPI_for_step. cbn zeta.
    simpl final_attempt. rewrite Nat.add_0_r. rewrite Z.eqb_refl. simpl negb. simpl andb.
    destruct (remote w (attempts w) req) as [r|code reason message|e| |e|e]; simpl;
      try (split; [reflexivity|split; [lia|reflexivity]]).
    destruct (Py.mem reason throw_reasons); simpl;
      [split; [reflexivity|split; [lia|reflexivity]]|].
    destruct soft_errors; simpl; split; try reflexivity; split; try lia; reflexivity.
  - apply Forall_cons in Hpre as [Hn Hpre].
    assert (Hneq : negb (n =? retries) = true).
    { apply negb_true_iff, Z.eqb_neq, Hn. }
    change ((n :: pre) ++ [retries]) with (n :: (pre ++ [retries])).
    rewrite callGAPI_for_step. cbn zeta. rewrite Hneq.
    simpl length. cbn [final_attempt]. rewrite Nat.add_0_r.
    set (w1 := set_attempts S (set_trace (fun t => t ++ [Execute req]) w)).
    assert (Hcont : forall reason,
      let r := bind (_backoff n retries reason)
                 (fun _ => callGAPI_for (pre ++ [retries]) req soft_errors
                             throw_reasons retry_reasons) w1 in
      let j := final_attempt
                 (fun i => retried throw_reasons retry_reasons
                             (remote w (attempts w + i)%nat req))
                 (length pre) 1 in
      outcome_of r = verdict_on soft_errors throw_reasons (remote w (attempts w + j)%nat req) /\
      attempts (world_of r) = (attempts w + S j)%nat /\
      remote (world_of r) = remote w).
    { intros reason. cbn zeta. unfold bind.
      destruct (backoff_returns n retries reason w1) as (w2 & -> & Hr2 & Ha2).
      destruct (IH w2 Hpre) as (Ho & Ha & Hr).
      subst w1. simpl in Hr2, Ha2.
      rewrite Hr2, Ha2 in Ho, Ha.
      rewrite final_attempt_shift.
      rewrite (final_attempt_ext _
                 (fun i => retried throw_reasons retry_reasons
                             (remote w (S (attempts w) + i)%nat req))) by
        (intros i; by replace (attempts w + S i)%nat with (S (attempts w) + i)%nat by lia).
      rewrite Ho, Ha, Hr, Hr2.
      set (j := final_attempt _ (length pre) 0).
      replace (S (attempts w) + j)%nat with (attempts w + S j)%nat by lia.
      split; [reflexivity|split; [lia|reflexivity]]. }
    destruct (remote w (attempts w) req) as [r|code reason message|e| |e|e] eqn:Hrem;
      cbn [retried];
      try (rewrite Nat.add_0_r, Hrem; subst w1; simpl;
           split; [reflexivity|split; [lia|reflexivity]]).
    + destruct (Py.mem reason throw_reasons) eqn:Hthrow; cbn [negb andb].
      { rewrite Nat.add_0_r, Hrem. subst w1. simpl. rewrite Hthrow.
        split; [reflexivity|split; [lia|reflexivity]]. }
      destruct (Py.mem reason (builtin_retry_reasons ++ retry_reasons)) eqn:Hretry.
      { apply Hcont. }
      rewrite Nat.add_0_r, Hrem. subst w1. cbn [verdict_on]. rewrite Hthrow.
      destruct soft_errors; simpl; split; try reflexivity; split; try lia; reflexivity.
    + apply Hcont.
Qed.

Lemma attempt_numbers_split :
  attempt_numbers = seqZ 1 9 ++ [retries] /\
  Forall (fun n => n <> retries) (seqZ 1 9).
Proof.
  split; [reflexivity|].
  apply Forall_forall. intros n Hn. apply elem_of_seqZ in Hn. unfold retries. lia.
Qed.



Lemma total_delay_le (f : nat -> Q) (g : nat -> Z) :
  (forall i, (f i <= inject_Z (g i))%Q) ->
  forall m s, (total_delay (f <$> seq s m) <= inject_Z (foldr Z.add 0%Z (g <$> seq s m)))%Q.
Proof.
  intros Hfg. induction m as [|m IH]; intros s; simpl.
  - apply Qle_refl.
  - rewrite inject_Z_plus. apply Qplus_le_compat; [apply Hfg|apply IH].
Qed.

Lemma delay_of_le (ns : list Z) (w : world) (i : nat) :
  (delay_of ns w i <= inject_Z (wait_on_fail (nth i ns 0%Z) + 1)%Z)%Q.
Proof.
  unfold delay_of. rewrite inject_Z_plus.
  apply Qplus_le_compat; [apply Qle_refl|].
  destruct (jitter_after_draw w i) as (k & Hk & ->).
  apply (randomness_range k Hk).
Qed.

(** X3. All the pauses of one call add up to at most 311 seconds: at most
    nine of them, of [2+4+8+16+32+60+60+60+60] seconds and at most one
    second of jitter each. *)
Theorem callGAPI_total_delay_bound (w : world) :
  let r := callGAPI req soft_errors throw_reasons retry_reasons w in
  exists slept,
    sleeps (trace (world_of r)) = sleeps (trace w) ++ slept /\
    (length slept <= 9)%nat /\
    (total_delay slept <= 311)%Q.
Proof.
  intros r.
  destruct (callGAPI_for_spec req soft_errors throw_reasons retry_reasons
              attempt_numbers w last_attempt_numbers)
    as (k & Hk & _ & _ & _ & _ & Hs & _).
  fold (callGAPI req soft_errors throw_reasons retry_reasons w) in Hs. fold r in Hs.
  change (length attempt_numbers) with 10%nat in Hk.
  exists (delay_of attempt_numbers w <$> seq 0 (k - 1)).
  split; [exact Hs|]. split; [rewrite length_fmap, length_seq; lia|].
  eapply Qle_trans.
  { apply (total_delay_le _ (fun i => wait_on_fail (nth i attempt_numbers 0) + 1)).
    intros i. apply delay_of_le. }
  assert (k - 1 <= 9)%nat as Hm by lia.
  revert Hm. generalize (k - 1)%nat as m. intros m Hm.
  do 10 (destruct m as [|m]; [vm_compute; discriminate|]). lia.
Qed.

End Verdict.

(** ** The paginator, when a page is refused *)

Lemma callGAPI_first_refused req soft throw retry w code reason message :
  remote w (attempts w) req = HttpFails code reason message ->
  Py.mem reason (builtin_retry_reasons ++ retry) = false ->
  exists w',
    callGAPI req soft throw retry w =
      (if Py.mem reason throw then Raise (HttpError code reason message) w'
       else if soft then Ok None w' else Exit 5 w') /\
    remote w' = remote w /\ attempts w' = S (attempts w).
Proof.
  intros Hrem Hretry. unfold callGAPI. rewrite attempt_numbers_cons.
  rewrite callGAPI_for_step. cbn zeta. rewrite Hrem, Hretry, andb_false_r.
  destruct (Py.mem reason throw); [by eexists|].
  destruct soft; by eexists.
Qed.



(** ** The label directory: creation, loading, well-known names *)

Lemma callGAPI_raise_thrown req soft throw retry w code reason message w' :
  callGAPI req soft throw retry w = Raise (HttpError code reason message) w' ->
  Py.mem reason throw = true.
Proof.
  intros Hrun.
  destruct attempt_numbers_split as [Hsplit Hpre].
  destruct (callGAPI_for_verdict req soft throw retry (seqZ 1 9) w Hpre) as (Ho & _ & _).
  rewrite <- Hsplit in Ho. fold (callGAPI req soft throw retry w) in Ho.
  rewrite Hrun in Ho. simpl in Ho.
  destruct (remote w _ req) as [r|code' reason' message'|e| |e|e]; simpl in Ho; try done.
  destruct (Py.mem reason' throw) eqn:Hthrow; [|by destruct soft].
  by injection Ho as -> -> ->.
Qed.

(** X5. [createLabel] is the create call followed by the lookup of [id]:
    the call is made without [throw_reasons], so no HTTP failure reaches
    the handler that would look an existing label up after a conflict, and
    [createLabel] never raises one. *)
Theorem createLabel_conflict_handler_unreachable (label_name : string) (w : world) :
  createLabel label_name w =
    bind (callGAPI (labels_create_request label_name) false [] []) get_id w /\
  forall code reason message w',
    createLabel label_name w <> Raise (HttpError code reason message) w'.
Proof.
  assert (Heq : createLabel label_name w =
    bind (callGAPI (labels_create_request label_name) false [] []) get_id w).
  { unfold createLabel, try_except, bind.
    destruct (callGAPI _ _ _ _ w) as [a w1|e w1|c w1] eqn:Hcall; [|by destruct e as [code reason message| | | | |];
      [apply callGAPI_raise_thrown in Hcall|..]|done].
    unfold get_id. destruct a as [r|]; [|done]. by destruct (r_id r). }
  split; [exact Heq|].
  intros code reason message w' Hrun. rewrite Heq in Hrun. unfold bind in Hrun.
  destruct (callGAPI _ _ _ _ w) as [a w1|e w1|c w1] eqn:Hcall; [| |done].
  - unfold get_id in Hrun. destruct a as [r|]; [|done]. by destruct (r_id r).
  - injection Hrun as -> ->. by apply callGAPI_raise_thrown in Hcall.
Qed.

Lemma load_loop_spec (l : list label_entry) (w : world) :
  for_each l (fun a w' => Ok tt (set_allLabelIds (insert (l_name a) (l_id a)) w')) w =
    Ok tt (set_allLabelIds
             (fun m => foldl (fun m a => <[l_name a := l_id a]> m) m l) w).
Proof.
  revert w. induction l as [|a l IH]; intros w; [by destruct w|].
  cbn [for_each]. unfold bind. rewrite IH. by destruct w.
Qed.

Lemma foldl_insert_other {A} (key val : A -> string) (l : list A) :
  forall (m : gmap string string) (k : string),
  k ∉ key <$> l ->
  foldl (fun m a => <[key a := val a]> m) m l !! k = m !! k.
Proof.
  induction l as [|a l IH]; intros m k Hk; [done|]. simpl.
  rewrite fmap_cons in Hk. apply not_elem_of_cons in Hk as [Hne Hk].
  rewrite IH by done. by rewrite lookup_insert_ne.
Qed.

Lemma foldl_insert_lookup {A} (key val : A -> string) (l : list A) :
  forall (m : gmap string string) (a : A),
  NoDup (key <$> l) -> a ∈ l ->
  foldl (fun m a => <[key a := val a]> m) m l !! key a = Some (val a).
Proof.
  induction l as [|b l IH]; intros m a Hnd Ha; [by apply elem_of_nil in Ha|]. simpl.
  rewrite fmap_cons in Hnd. apply NoDup_cons in Hnd as [Hb Hnd].
  apply elem_of_cons in Ha as [->|Ha].
  - rewrite foldl_insert_other by done. apply lookup_insert_eq.
  - by apply IH.
Qed.

Lemma resolve_labels_cached (picks : list label_entry) : forall (acc : list string) (w : world),
  Forall (fun a => allLabelIds w !! l_name a = Some (l_id a)) picks ->
  resolve_labels acc (l_name <$> picks) w = Ok (acc ++ (l_id <$> picks)) w.
Proof.
  induction picks as [|a picks IH]; intros acc w Hall.
  - simpl. by rewrite app_nil_r.
  - apply Forall_cons in Hall as [Ha Hall]. rewrite fmap_cons. cbn [resolve_labels].
    unfold bind. rewrite (resolve_label_cached _ _ _ _ Ha).
    rewrite IH by done. by rewrite <- app_assoc.
Qed.

Lemma load_allLabelIds_spec (w : world) (r : response) (ls : list label_entry) :
  allLabelIds w = ∅ ->
  remote w (attempts w) labels_list_request = Returns r ->
  r_labels r = Some ls ->
  exists w',
    load_allLabelIds w = Ok tt w' /\
    remote w' = remote w /\
    attempts w' = S (attempts w) /\
    requests (trace w') = requests (trace w) ++ [labels_list_request] /\
    allLabelIds w' = foldl (fun m a => <[l_name a := l_id a]> m) ∅ ls.
Proof.
  intros Hempty Hrem Hls.
  unfold load_allLabelIds, cache_is_empty.
  rewrite bool_decide_eq_true_2 by done.
  unfold bind at 1. rewrite (callGAPI_first_try _ _ _ _ _ _ Hrem).
  unfold bind at 1, get_labels. rewrite Hls. unfold ret.
  rewrite load_loop_spec. eexists. split; [reflexivity|]. simpl.
  rewrite requests_app, Hempty. done.
Qed.



Lemma upper_lower_ascii (c : ascii) : Py.upper_ascii (Py.lower_ascii c) = Py.upper_ascii c.
Proof. destruct c as [[] [] [] [] [] [] [] []]; reflexivity. Qed.

Lemma lower_upper_ascii (c : ascii) : Py.lower_ascii (Py.upper_ascii c) = Py.lower_ascii c.
Proof. destruct c as [[] [] [] [] [] [] [] []]; reflexivity. Qed.

Lemma upper_lower (s : string) : Py.upper (Py.lower s) = Py.upper s.
Proof. induction s as [|c s IH]; simpl; [done|]. by rewrite upper_lower_ascii, IH. Qed.

Lemma lower_upper (s : string) : Py.lower (Py.upper s) = Py.lower s.
Proof. induction s as [|c s IH]; simpl; [done|]. by rewrite lower_upper_ascii, IH. Qed.

Lemma mem_In (x : string) (l : list string) : Py.mem x l = true -> In x l.
Proof.
  unfold Py.mem. intros H. apply existsb_exists in H as (y & Hy & Heq).
  apply String.eqb_eq in Heq. by subst.
Qed.

Lemma resolve_label_well_known (acc : list string) (label : string) (w : world) :
  allLabelIds w !! label = None ->
  Py.mem (Py.upper label) system_labels = true
  \/ Py.mem (Py.lower label) reserved_labels = true ->
  resolve_label acc label w = Ok (acc ++ [well_known_id (Py.lower label)]) w.
Proof.
  intros Hnone Hknown. unfold resolve_label. rewrite Hnone.
  destruct (Py.mem label system_labels) eqn:Hsys.
  { apply mem_In in Hsys. simpl in Hsys.
    repeat (destruct Hsys as [<-|Hsys]; [reflexivity|]). done. }
  destruct (Py.mem (Py.upper label) system_labels) eqn:Hup.
  { rewrite <- (lower_upper label). apply mem_In in Hup. simpl in Hup.
    repeat (destruct Hup as [<-|Hup]; [reflexivity|]). done. }
  destruct Hknown as [?|Hres]; [done|]. rewrite Hres.
  unfold well_known_id, Py.mem, existsb.
  destruct (Py.lower label =? "chat")%string; [done|].
  destruct (Py.lower label =? "chats")%string; [done|]. cbn [orb].
  destruct (_ || _)%bool; [done|]. by rewrite upper_lower.
Qed.

(** X7. Names that are cached, or that are reserved or system names in any
    spelling of upper and lower case, are resolved without the remote
    store: nothing is sent, printed or cached, the ids come in the order
    asked, and the id of a name that is not cached depends on the name in
    lower case only: [CHAT] for [chat] and [chats], [DRAFT] for [draft] and
    [drafts], the name in upper case otherwise. *)
Theorem labelsToLabelIds_well_known_names_stay_local (w : world) (names : list string) :
  allLabelIds w ≠ ∅ ->
  Forall (fun l => is_Some (allLabelIds w !! l)
                   \/ Py.mem (Py.upper l) system_labels = true
                   \/ Py.mem (Py.lower l) reserved_labels = true) names ->
  labelsToLabelIds names w =
    Ok ((fun l => default (well_known_id (Py.lower l)) (allLabelIds w !! l)) <$> names) w.
Proof.
  intros Hloaded Hnames. unfold labelsToLabelIds, bind at 1.
  rewrite load_allLabelIds_loaded by done.
  change (Ok (?f <$> names) w) with (Ok ([] ++ (f <$> names)) w).
  generalize (@nil string) as acc.
  induction names as [|l names IH]; intros acc.
  - simpl. by rewrite app_nil_r.
  - apply Forall_cons in Hnames as [Hl Hnames]. cbn [resolve_labels]. unfold bind.
    assert (resolve_label acc l w =
            Ok (acc ++ [default (well_known_id (Py.lower l)) (allLabelIds w !! l)]) w) as ->.
    { destruct (allLabelIds w !! l) as [i|] eqn:Hi.
      - by apply resolve_label_cached.
      - apply resolve_label_well_known; [done|]. destruct Hl as [[? ?]|Hl]; [done|exact Hl]. }
    rewrite IH by done. by rewrite <- app_assoc.
Qed.

(** X7, on the cache [{"Work": "Label_1"}]. *)
Lemma labelsToLabelIds_well_known_spellings :
  labelsToLabelIds ["Work"; "Drafts"; "InBox"; "category_social"; "Chats"] world_Work_cached =
    Ok ["Label_1"; "DRAFT"; "INBOX"; "CATEGORY_SOCIAL"; "CHAT"] world_Work_cached.
Proof.
  refine (labelsToLabelIds_well_known_names_stay_local world_Work_cached
            ["Work"; "Drafts"; "InBox"; "category_social"; "Chats"] _ _).
  - apply insert_non_empty.
  - constructor; [left; by exists "Label_1"|].
    constructor; [right; right; reflexivity|].
    constructor; [right; left; reflexivity|].
    constructor; [right; left; reflexivity|].
    constructor; [right; right; reflexivity|].
    constructor.
Defined.

(** ** The label directory read backwards: [labelIdsToLabels] *)

Lemma load_names_loop_spec (l : list label_entry) (s : labels_world) :
  for_each l (fun a s' => Ok tt (<[l_id a := l_name a]> s'.1, s'.2)) s =
    Ok tt (foldl (fun m a => <[l_id a := l_name a]> m) s.1 l, s.2).
Proof.
  revert s. induction l as [|a l IH]; intros s; [by destruct s|].
  cbn [for_each]. unfold bind. by rewrite IH.
Qed.

Lemma load_allLabels_spec (w : world) (r : response) (ls : list label_entry) :
  remote w (attempts w) labels_list_request = Returns r ->
  r_labels r = Some ls ->
  exists w',
    load_allLabels (∅, w) =
      Ok tt (foldl (fun m a => <[l_id a := l_name a]> m) ∅ ls, w') /\
    remote w' = remote w /\
    attempts w' = S (attempts w) /\
    allLabelIds w' = allLabelIds w /\
    requests (trace w') = requests (trace w) ++ [labels_list_request].
Proof.
  intros Hrem Hls. unfold load_allLabels, cache_is_empty.
  rewrite bool_decide_eq_true_2 by done.
  unfold bind at 1, in_world at 1. cbn [fst snd].
  rewrite (callGAPI_first_try _ _ _ _ _ _ Hrem).
  unfold bind at 1, in_world, get_labels. rewrite Hls. unfold ret. cbn [fst snd].
  rewrite load_names_loop_spec. eexists. split; [reflexivity|]. simpl.
  rewrite requests_app. done.
Qed.

Lemma names_of_spec (m : gmap string string) (ids : list string) : forall acc,
  names_of m acc ids = acc ++ ((fun i => default i (m !! i)) <$> ids).
Proof.
  induction ids as [|i ids IH]; intros acc; simpl; [by rewrite app_nil_r|].
  rewrite IH, <- app_assoc. simpl. by destruct (m !! i).
Qed.

Lemma foldl_insert_Some {A} (key val : A -> string) (l : list A) :
  forall (m : gmap string string) (k v : string),
  foldl (fun m a => <[key a := val a]> m) m l !! k = Some v ->
  m !! k = Some v \/ exists a, a ∈ l /\ key a = k /\ val a = v.
Proof.
  induction l as [|b l IH]; intros m k v H; [by left|]. simpl in H.
  apply IH in H as [H|(a & Ha & Hk & Hv)].
  - destruct (decide (key b = k)) as [Hb|Hb].
    + subst k. rewrite lookup_insert_eq in H. injection H as <-.
      right. exists b. split; [apply list_elem_of_here|done].
    + rewrite lookup_insert_ne in H by done. by left.
  - right. exists a. split; [by apply list_elem_of_further|done].
Qed.

Lemma foldl_insert_is_Some {A} (key val : A -> string) (l : list A) :
  forall (m : gmap string string) (k : string),
  is_Some (m !! k) \/ k ∈ key <$> l ->
  is_Some (foldl (fun m a => <[key a := val a]> m) m l !! k).
Proof.
  induction l as [|b l IH]; intros m k H.
  - destruct H as [H|H]; [done|]. by apply elem_of_nil in H.
  - simpl. apply IH. rewrite fmap_cons in H.
    destruct (decide (key b = k)) as [Hb|Hb].
    + left. subst k. rewrite lookup_insert_eq. by eexists.
    + rewrite lookup_insert_ne by done.
      destruct H as [H|H]; [by left|]. apply elem_of_cons in H as [H|H]; [congruence|by right].
Qed.





(** ** The ledger and the backup folder *)

Lemma filter_iff_in {A} (P Q : A -> Prop)
    `{forall x, Decision (P x)} `{forall x, Decision (Q x)} (l : list A) :
  (forall x, x ∈ l -> P x <-> Q x) -> filter P l = filter Q l.
Proof.
  induction l as [|x l IH]; intros Hall; [done|].
  assert (filter P l = filter Q l) as Hl by (apply IH; intros y Hy; apply Hall; by right).
  destruct (decide (P x)) as [HP|HP].
  - rewrite !filter_cons_True; [by rewrite Hl|by apply Hall; [left|]|done].
  - rewrite !filter_cons_False; [done| |done]. intros HQ. apply HP, Hall; [left|done].
Qed.

Lemma lost_in_spec folder fs (rows : list (string * string * Q)) (num : string) :
  num ∈ lost_in folder fs ((fun r => (Sql.message_num r, Sql.message_filename r)) <$> rows)
  <-> exists row, row ∈ rows /\ Sql.message_num row = num /\ ~ has_file folder fs row.
Proof.
  unfold lost_in, has_file. rewrite list_elem_of_fmap. split.
  - intros ([n f] & -> & Hin). apply list_elem_of_filter in Hin as [Hgone Hin].
    apply list_elem_of_fmap in Hin as (row & Heq & Hrow). injection Heq as -> ->.
    exists row. split; [done|]. split; [done|]. simpl in Hgone. rewrite Hgone. by intros [? ?].
  - intros (row & Hrow & <- & Hgone).
    exists (Sql.message_num row, Sql.message_filename row). split; [done|].
    apply list_elem_of_filter. split.
    + simpl. destruct (fs !! _) eqn:E; [|done]. exfalso. apply Hgone. by eexists.
    + apply list_elem_of_fmap. by exists row.
Qed.

Lemma NoDup_fmap_key {A} (key : A -> string) (l : list A) (x y : A) :
  NoDup (key <$> l) -> x ∈ l -> y ∈ l -> key x = key y -> x = y.
Proof.
  induction l as [|a l IH]; intros Hnd Hx Hy Heq; [by apply elem_of_nil in Hx|].
  rewrite fmap_cons in Hnd. apply NoDup_cons in Hnd as [Ha Hnd].
  apply elem_of_cons in Hx as [->|Hx]; apply elem_of_cons in Hy as [->|Hy]; try done.
  - exfalso. apply Ha. rewrite Heq. by apply list_elem_of_fmap_2.
  - exfalso. apply Ha. rewrite <- Heq. by apply list_elem_of_fmap_2.
  - by apply IH.
Qed.

Lemma filter_lost_has_file folder fs (rows : list (string * string * Q)) :
  NoDup (Sql.message_num <$> rows) ->
  filter (fun r => Sql.message_num r ∉
            lost_in folder fs ((fun r => (Sql.message_num r, Sql.message_filename r)) <$> rows))
         rows
  = filter (has_file folder fs) rows.
Proof.
  intros Hnd. apply filter_iff_in. intros row Hrow.
  rewrite lost_in_spec. split.
  - intros Hkeep. destruct (decide (has_file folder fs row)) as [|Hgone]; [done|].
    exfalso. apply Hkeep. by exists row.
  - intros Hfile (row' & Hrow' & Heq & Hgone).
    by rewrite (NoDup_fmap_key Sql.message_num rows row' row Hnd Hrow' Hrow Heq) in Hgone.
Qed.

(** X10. [getMessageIDs] keeps, in their order, exactly the records whose
    file is in the backup folder, when no two records share a message
    number; the label and uid rows of the records it drops go with them,
    the result is committed, and no file is touched. *)
Theorem getMessageIDs_keeps_records_with_files (folder : string) (w : world)
    (rows : list (string * string * Q)) (lrows urows : list (string * string)) :
  messages (cur (sqlconn w)) = Some rows ->
  labels (cur (sqlconn w)) = Some lrows ->
  uids (cur (sqlconn w)) = Some urows ->
  NoDup (Sql.message_num <$> rows) ->
  let kept := filter (has_file folder (files w)) rows in
  exists w',
    getMessageIDs folder w = Ok tt w' /\
    messages (cur (sqlconn w')) = Some kept /\
    (exists lrows', labels (cur (sqlconn w')) = Some lrows' /\
       forall x, x ∈ lrows' <->
         x ∈ lrows /\ (x.1 ∈ Sql.message_num <$> rows -> x.1 ∈ Sql.message_num <$> kept)) /\
    (exists urows', uids (cur (sqlconn w')) = Some urows' /\
       forall x, x ∈ urows' <->
         x ∈ urows /\ (x.1 ∈ Sql.message_num <$> rows -> x.1 ∈ Sql.message_num <$> kept)) /\
    committed (sqlconn w') = cur (sqlconn w') /\
    files w' = files w.
Proof.
  intros Hm Hl Hu Hnd kept.
  destruct (getMessageIDs_spec folder w rows lrows urows Hm Hl Hu)
    as (w' & Hrun & Hm' & Hl' & Hu' & Hc & Hf).
  assert (Hlost : forall num,
    num ∉ lost_in folder (files w)
            ((fun r => (Sql.message_num r, Sql.message_filename r)) <$> rows)
    <-> (num ∈ Sql.message_num <$> rows -> num ∈ Sql.message_num <$> kept)).
  { intros num. rewrite lost_in_spec. split.
    - intros Hkeep Hin. apply list_elem_of_fmap in Hin as (row & -> & Hrow).
      apply list_elem_of_fmap. exists row. split; [done|].
      apply list_elem_of_filter. split; [|done].
      destruct (decide (has_file folder (files w) row)) as [|Hgone]; [done|].
      exfalso. apply Hkeep. by exists row.
    - intros Himp (row & Hrow & <- & Hgone).
      assert (Sql.message_num row ∈ Sql.message_num <$> kept) as Hin
        by (apply Himp; by apply list_elem_of_fmap_2).
      apply list_elem_of_fmap in Hin as (row' & Heq & Hrow').
      apply list_elem_of_filter in Hrow' as [Hfile Hrow'].
      by rewrite <- (NoDup_fmap_key Sql.message_num rows row row' Hnd Hrow Hrow' Heq) in Hfile. }
  exists w'. split; [exact Hrun|].
  split; [by rewrite Hm', filter_lost_has_file|].
  split; [|split; [|done]].
  - eexists. split; [exact Hl'|]. intros x. rewrite list_elem_of_filter, Hlost. tauto.
  - eexists. split; [exact Hu'|]. intros x. rewrite list_elem_of_filter, Hlost. tauto.
Qed.

(** X10, on a ledger with two records of which the first lost its file. *)
Lemma getMessageIDs_on_two_records :
  exists w',
    getMessageIDs "GYB-GMail-Backup" world_m2_on_disk = Ok tt w' /\
    messages (cur (sqlconn w')) = Some [("m2", "m2.eml", 1700000001%Q)] /\
    committed (sqlconn w') = cur (sqlconn w').
Proof.
  destruct (getMessageIDs_keeps_records_with_files "GYB-GMail-Backup" world_m2_on_disk
              [("m1", "m1.eml", 1700000000%Q); ("m2", "m2.eml", 1700000001%Q)]
              [("m1", "INBOX"); ("m2", "SENT"); ("m1", "UNREAD")]
              [("m1", "m1"); ("m2", "m2")]
              eq_refl eq_refl eq_refl
              ltac:(apply (bool_decide_unpack _); vm_compute; exact I))
    as (w' & Hrun & Hm & _ & _ & Hc & _).
  exists w'. split; [exact Hrun|]. split; [exact Hm|exact Hc].
Defined.

Lemma rebuildUIDTable_spec (w : world) (rows : list (string * string * Q))
    (urows : list (string * string)) :
  messages (cur (sqlconn w)) = Some rows ->
  uids (cur (sqlconn w)) = Some urows ->
  NoDup (Sql.message_num <$> rows) ->
  rebuildUIDTable w =
    Ok tt (connect
             (Sql.with_uids
                (Some ((fun r => (Sql.message_num r, Sql.message_num r)) <$> rows))
                (cur (sqlconn w))) w).
Proof.
  intros Hm Hu Hnd. unfold rebuildUIDTable, bind.
  erewrite sql_execute_inr; [|unfold Sql.clear_uids; rewrite Hu; reflexivity].
  erewrite sql_execute_inr.
  2:{ unfold Sql.fill_uids. cbn. rewrite Hm. rewrite decide_True; [reflexivity|].
      rewrite <- list_fmap_compose. exact Hnd. }
  unfold commit, connect, put_cur, set_sqlconn. cbn. reflexivity.
Qed.

(** X11. [rebuildUIDTable] replaces the uid table, whatever it held, by
    one row per recorded message, whose uid is the message number, and
    commits; it needs the message numbers to be distinct, as the primary
    key of [messages] makes them.  Rebuilding again changes nothing. *)
Theorem rebuildUIDTable_one_uid_per_message (w : world)
    (rows : list (string * string * Q)) (urows : list (string * string)) :
  messages (cur (sqlconn w)) = Some rows ->
  uids (cur (sqlconn w)) = Some urows ->
  NoDup (Sql.message_num <$> rows) ->
  exists w',
    rebuildUIDTable w = Ok tt w' /\
    uids (cur (sqlconn w')) =
      Some ((fun r => (Sql.message_num r, Sql.message_num r)) <$> rows) /\
    messages (cur (sqlconn w')) = Some rows /\
    labels (cur (sqlconn w')) = labels (cur (sqlconn w)) /\
    committed (sqlconn w') = cur (sqlconn w') /\
    rebuildUIDTable w' = Ok tt w'.
Proof.
  intros Hm Hu Hnd.
  set (urows' := (fun r => (Sql.message_num r, Sql.message_num r)) <$> rows).
  exists (connect (Sql.with_uids (Some urows') (cur (sqlconn w))) w).
  split; [by eapply rebuildUIDTable_spec|].
  do 4 (split; [cbn; by rewrite ?Hm|]).
  rewrite (rebuildUIDTable_spec _ rows urows') by (cbn; by rewrite ?Hm).
  unfold connect, set_sqlconn. cbn. reflexivity.
Qed.

(** X11, on a ledger whose uid table was emptied. *)
Lemma rebuildUIDTable_on_two_records :
  exists w',
    rebuildUIDTable (connect (Sql.with_uids (Some []) ledger_two_records) blank_world)
      = Ok tt w' /\
    uids (cur (sqlconn w')) = Some [("m1", "m1"); ("m2", "m2")].
Proof.
  destruct (rebuildUIDTable_one_uid_per_message
              (connect (Sql.with_uids (Some []) ledger_two_records) blank_world)
              [("m1", "m1.eml", 1700000000%Q); ("m2", "m2.eml", 1700000001%Q)] []
              eq_refl eq_refl
              ltac:(apply (bool_decide_unpack _); vm_compute; exact I))
    as (w' & Hrun & Hu & _).
  exists w'. split; [exact Hrun|exact Hu].
Defined.

(** *** Recording a message that the ledger does not know yet *)

Lemma put_cur_put_cur l1 l2 w : put_cur l2 (put_cur l1 w) = put_cur l2 w.
Proof. by destruct w as [? ? ? ? ? ? [? ?] ? ?]. Qed.

Lemma record_message_fresh num filename date ls w rows lrows lrows1 :
  messages (cur (sqlconn w)) = Some rows ->
  labels (cur (sqlconn w)) = Some lrows ->
  num ∉ Sql.message_num <$> rows ->
  (let w2 := put_cur (Sql.with_labels (Some (filter (fun x => x.1 ≠ num) lrows))
                        (Sql.with_messages (Some (rows ++ [(num, filename, date)]))
                           (cur (sqlconn w)))) w in
   let w' := put_cur (Sql.with_labels (Some lrows1) (cur (sqlconn w2))) w2 in
   for_each ls (fun label => sql_execute (Sql.insert_label num label)) w2 = Ok tt w'
   \/ exists s, for_each ls (fun label => sql_execute (Sql.insert_label num label)) w2
                = Raise (IntegrityError s) w') ->
  try_except
    (sql_execute (Sql.insert_message num filename date) ;;;
     sql_execute (Sql.delete_labels num) ;;;
     for_each ls (fun label => sql_execute (Sql.insert_label num label)))%py
    pass_IntegrityError w
  = Ok tt (put_cur (Sql.with_labels (Some lrows1)
                      (Sql.with_messages (Some (rows ++ [(num, filename, date)]))
                         (cur (sqlconn w)))) w).
Proof.
  intros Hrows Hlrows Hnew Hloop. cbn zeta in Hloop.
  rewrite put_cur_put_cur in Hloop.
  apply try_pass_IntegrityError. unfold bind.
  erewrite sql_execute_inr;
    [|unfold Sql.insert_message; rewrite Hrows;
      rewrite decide_False by done; reflexivity].
  erewrite sql_execute_inr;
    [|unfold Sql.delete_labels; cbn; rewrite Hlrows; reflexivity].
  rewrite put_cur_put_cur.
  destruct Hloop as [Hrun | [s Hrun]]; [left|right; exists s]; exact Hrun.
Qed.

Lemma lookup_after_record num filename date folder w rows (lrows1 : list (string * string))
    (w0 : world) :
  num ∉ Sql.message_num <$> rows ->
  is_Some (files w0 !! Py.path_join folder filename) ->
  w = put_cur (Sql.with_labels (Some lrows1)
                 (Sql.with_messages (Some (rows ++ [(num, filename, date)]))
                    (cur (sqlconn w0)))) w0 ->
  message_is_backed_up num folder w = Ok true w.
Proof.
  intros Hnew Hfile ->.
  unfold message_is_backed_up, bind at 1, sql_query, Sql.select_filename. cbn.
  rewrite filter_app, (filter_none _ rows), app_nil_l.
  2:{ intros x Hx Heq. apply Hnew. rewrite <- Heq. by apply list_elem_of_fmap_2. }
  rewrite filter_cons_True by done. cbn.
  unfold bind, isfile. cbn. by rewrite bool_decide_eq_true_2.
Qed.

Lemma lookup_unrecorded num folder w rows :
  messages (cur (sqlconn w)) = Some rows ->
  num ∉ Sql.message_num <$> rows ->
  message_is_backed_up num folder w = Ok false w.
Proof.
  intros Hrows Hnew.
  unfold message_is_backed_up, bind, sql_query, Sql.select_filename. rewrite Hrows.
  rewrite filter_none; [done|].
  intros x Hx Heq. apply Hnew. rewrite <- Heq. by apply list_elem_of_fmap_2.
Qed.



Lemma with_labels_same (l : ledger) (rows : list (string * string)) :
  labels l = Some rows -> Sql.with_labels (Some rows) l = l.
Proof. intros <-. by destruct l. Qed.

Lemma elem_of_labelled (num l : string) (base : list (string * string)) (seen : list string) :
  (forall x, x ∈ base -> x.1 ≠ num) ->
  (num, l) ∈ base ++ ((fun l => (num, l)) <$> seen) <-> l ∈ seen.
Proof.
  intros Hbase. rewrite elem_of_app, list_elem_of_fmap. split.
  - intros [Hin|(l' & Heq & Hin)]; [by apply Hbase in Hin|]. by injection Heq as ->.
  - intros Hin. right. by exists l.
Qed.

Lemma backup_loop_until_repeat num : forall ls seen w base,
  labels (cur (sqlconn w)) = Some (base ++ ((fun l => (num, l)) <$> seen)) ->
  labelidx (cur (sqlconn w)) = true ->
  (forall x, x ∈ base -> x.1 ≠ num) ->
  let w' := put_cur (Sql.with_labels
                       (Some (base ++ ((fun l => (num, l)) <$> (seen ++ until_repeat seen ls))))
                       (cur (sqlconn w))) w in
  for_each ls (fun label => sql_execute (Sql.insert_label num label)) w = Ok tt w'
  \/ exists s, for_each ls (fun label => sql_execute (Sql.insert_label num label)) w
               = Raise (IntegrityError s) w'.
Proof.
  induction ls as [|l rest IH]; intros seen w base Hrows Hidx Hbase; cbn zeta.
  { left. simpl. rewrite app_nil_r, with_labels_same, put_cur_same by done. done. }
  cbn [for_each until_repeat]. unfold bind.
  destruct (bool_decide (l ∈ seen)) eqn:Hseen.
  - right. eexists.
    erewrite sql_execute_inl.
    2:{ unfold Sql.insert_label. rewrite Hrows, Hidx. cbn [andb].
        rewrite bool_decide_eq_true_2; [reflexivity|].
        apply elem_of_labelled; [done|]. by apply bool_decide_eq_true in Hseen. }
    by rewrite app_nil_r, with_labels_same, put_cur_same.
  - erewrite sql_execute_inr.
    2:{ unfold Sql.insert_label. rewrite Hrows, Hidx. cbn [andb].
        rewrite bool_decide_eq_false_2; [reflexivity|].
        rewrite elem_of_labelled by done. by apply bool_decide_eq_false in Hseen. }
    specialize (IH (seen ++ [l])
                  (put_cur (Sql.with_labels
                              (Some ((base ++ ((fun l => (num, l)) <$> seen)) ++ [(num, l)]))
                              (cur (sqlconn w))) w) base).
    cbn zeta in IH. rewrite put_cur_put_cur in IH.
    replace (seen ++ l :: until_repeat (seen ++ [l]) rest)
      with ((seen ++ [l]) ++ until_repeat (seen ++ [l]) rest)
      by (by rewrite <- app_assoc).
    assert (Heq : forall rows',
      Sql.with_labels (Some rows')
        (cur (sqlconn (put_cur (Sql.with_labels
                                  (Some ((base ++ ((fun l => (num, l)) <$> seen)) ++ [(num, l)]))
                                  (cur (sqlconn w))) w)))
      = Sql.with_labels (Some rows') (cur (sqlconn w))) by done.
    rewrite Heq in IH. apply IH.
    + cbn. by rewrite fmap_app, app_assoc.
    + exact Hidx.
    + exact Hbase.
Qed.

Lemma until_repeat_NoDup : forall ls seen,
  NoDup ls -> (forall l, l ∈ ls -> l ∉ seen) -> until_repeat seen ls = ls.
Proof.
  induction ls as [|l rest IH]; intros seen Hnd Hseen; [done|].
  apply NoDup_cons in Hnd as [Hl Hnd]. cbn [until_repeat].
  rewrite bool_decide_eq_false_2 by (apply Hseen; left).
  f_equal. apply IH; [done|]. intros l' Hl' Hin.
  apply elem_of_app in Hin as [Hin|Hin].
  - by apply (Hseen l'); [right|].
  - apply list_elem_of_singleton in Hin. by subst.
Qed.



(** *** [refresh_message] *)

Lemma elem_of_add_labels idx num : forall ls rows x,
  x ∈ add_labels idx num ls rows <-> x ∈ rows \/ (x.1 = num /\ x.2 ∈ ls).
Proof.
  induction ls as [|l rest IH]; intros rows x; cbn [add_labels].
  { split; [by left|]. intros [?|[_ H]]; [done|by apply elem_of_nil in H]. }
  rewrite IH. destruct (idx && bool_decide ((num, l) ∈ rows)) eqn:Hdup.
  - apply andb_true_iff in Hdup as [_ Hdup]. apply bool_decide_eq_true in Hdup.
    split.
    + intros [?|[? ?]]; [by left|]. right. split; [done|by right].
    + intros [?|[Hn Hl]]; [by left|]. apply elem_of_cons in Hl as [Hl|Hl].
      * left. destruct x as [n l']. simpl in *. by subst.
      * right. done.
  - rewrite elem_of_app, list_elem_of_singleton. split.
    + intros [[?| ->]|[? ?]]; [by left| |].
      * right. split; [done|by left].
      * right. split; [done|by right].
    + intros [?|[Hn Hl]]; [by left; left|]. apply elem_of_cons in Hl as [Hl|Hl].
      * left. right. destruct x as [n l']. simpl in *. by subst.
      * right. done.
Qed.



(** ** Opening a ledger *)

Lemma dict_of_initial_settings (email : string) :
  dict_of_rows [("email_address", email); ("db_version", __db_schema_version__)]
    !! "db_version" = Some __db_schema_version__ /\
  dict_of_rows [("email_address", email); ("db_version", __db_schema_version__)]
    !! "email_address" = Some email.
Proof.
  unfold dict_of_rows. simpl. split.
  - apply lookup_insert_eq.
  - rewrite lookup_insert_ne by done. apply lookup_insert_eq.
Qed.

Lemma check_db_settings_current db_settings action email stored w :
  db_settings !! "db_version" = Some __db_schema_version__ ->
  db_settings !! "email_address" = Some stored ->
  check_db_settings db_settings action email w =
    if (negb (Py.mem action restore_actions)
        && negb (String.eqb (Py.lower email) (Py.lower stored)))%bool
    then Exit 5 (set_trace (fun t => t ++
           [Stdout (("\n\nSorry, this backup folder should only be used with the "
                     +:+ stored
                     +:+ " account that it was created with for incremental backups."
                     +:+ " You specified the " +:+ email +:+ " account") +:+ Py.nl)]) w)
    else Ok tt w.
Proof.
  intros Hv He. unfold check_db_settings, bind at 1, getitem. rewrite Hv.
  unfold ret at 1. unfold bind at 1.
  change (version_refused __db_schema_version__) with false. cbv iota. unfold ret at 1.
  destruct (negb (Py.mem action restore_actions)); [|done].
  unfold bind at 1. rewrite He. unfold ret at 1.
  by destruct (negb (Py.lower email =? Py.lower stored)%string).
Qed.

(** X15. On a database file that was just created, the opening of the
    ledger initializes it for the account given and lets every action
    through, a restore included; [reindex] then ends the process with
    status 0.  In both cases the ledger left is the initial one, committed.
    Initializing it a second time raises [OperationalError] and changes
    nothing. *)
Theorem open_ledger_new_database (action email local_folder : string) (w : world) :
  open_ledger true action email local_folder (set_sqlconn (fun _ => fresh_connection) w)
    = (if String.eqb action "reindex"
       then Exit 0 (connect (initial_ledger email) w)
       else Ok tt (connect (initial_ledger email) w)) /\
  forall email',
    initializeDB email' (connect (initial_ledger email) w)
      = Raise (Sql.already_exists "settings") (connect (initial_ledger email) w).
Proof.
  split; [|reflexivity].
  destruct (dict_of_initial_settings email) as [Hv He].
  unfold open_ledger, bind at 1.
  change (initializeDB email (set_sqlconn (fun _ => fresh_connection) w))
    with (Ok tt (connect (initial_ledger email) w) : result world unit).
  unfold bind at 1.
  rewrite (get_db_settings_spec _
             [("email_address", email); ("db_version", __db_schema_version__)]) by reflexivity.
  unfold bind at 1.
  rewrite (check_db_settings_current _ action email email _ Hv He).
  rewrite String.eqb_refl, andb_false_r.
  destruct (String.eqb_spec action "reindex") as [->|Hne].
  - cbn [negb Py.mem existsb]. unfold bind at 1, getitem. rewrite Hv. reflexivity.
  - destruct (negb (Py.mem action restore_actions)); [|reflexivity].
    unfold bind at 1, getitem. rewrite Hv. reflexivity.
Qed.



(** X17. [reindex] on a ledger of the current version that belongs to the
    account: the records without a file are dropped, the uid table is
    rebuilt from the records that stay, all of it is committed, and the
    process ends with status 0. *)
Theorem open_ledger_reindex (email stored local_folder : string) (w : world)
    (srows : list (string * string)) (rows : list (string * string * Q))
    (lrows urows : list (string * string)) :
  settings (cur (sqlconn w)) = Some srows ->
  dict_of_rows srows !! "db_version" = Some __db_schema_version__ ->
  dict_of_rows srows !! "email_address" = Some stored ->
  Py.lower email = Py.lower stored ->
  messages (cur (sqlconn w)) = Some rows ->
  labels (cur (sqlconn w)) = Some lrows ->
  uids (cur (sqlconn w)) = Some urows ->
  NoDup (Sql.message_num <$> rows) ->
  let kept := filter (has_file local_folder (files w)) rows in
  exists w',
    open_ledger false "reindex" email local_folder w = Exit 0 w' /\
    messages (cur (sqlconn w')) = Some kept /\
    uids (cur (sqlconn w')) =
      Some ((fun r => (Sql.message_num r, Sql.message_num r)) <$> kept) /\
    committed (sqlconn w') = cur (sqlconn w') /\
    settings (cur (sqlconn w')) = Some srows /\
    files w' = files w.
Proof.
  intros Hs Hv He Hsame Hm Hl Hu Hnd kept.
  destruct (getMessageIDs_spec local_folder w rows lrows urows Hm Hl Hu)
    as (w1 & Hrun1 & Hm1 & Hl1 & Hu1 & Hc1 & Hf1).
  rewrite filter_lost_has_file in Hm1 by done. fold kept in Hm1.
  assert (Hs1 : settings (cur (sqlconn w1)) = Some srows).
  { revert Hrun1. unfold getMessageIDs, bind at 1, sql_query, Sql.select_messages.
    rewrite Hm. unfold bind at 1.
    rewrite (getMessageIDs_loop local_folder (files w) _ w rows lrows urows eq_refl Hm Hl Hu).
    unfold commit. intros [= <-]. exact Hs. }
  assert (Hnd1 : NoDup (Sql.message_num <$> kept)).
  { unfold kept. clear -Hnd. induction rows as [|x rows IH]; [constructor|].
    rewrite fmap_cons in Hnd. apply NoDup_cons in Hnd as [Hx Hnd].
    destruct (decide (has_file local_folder (files w) x)).
    - rewrite filter_cons_True by done. rewrite fmap_cons. apply NoDup_cons. split; [|by apply IH].
      intros Hin. apply Hx. apply list_elem_of_fmap in Hin as (y & -> & Hy).
      apply list_elem_of_filter in Hy as [_ Hy]. by apply list_elem_of_fmap_2.
    - rewrite filter_cons_False by done. by apply IH. }
  eexists. split.
  { unfold open_ledger, bind at 1. unfold ret at 1. unfold bind at 1.
    rewrite (get_db_settings_spec w srows Hs). unfold bind at 1.
    rewrite (check_db_settings_current _ "reindex" email stored w Hv He).
    rewrite Hsame, String.eqb_refl, andb_false_r.
    cbn [negb Py.mem existsb restore_actions String.eqb Ascii.eqb Bool.eqb orb andb].
    unfold bind at 1, getitem. rewrite Hv. unfold ret at 1.
    change (Py.str_lt __db_schema_version__ __db_schema_version__) with false. cbv iota.
    unfold bind at 1, ret at 1.
    change ("reindex" =? "reindex")%string with true. cbv iota.
    unfold bind at 1. rewrite Hrun1. unfold bind at 1.
    rewrite (rebuildUIDTable_spec w1 kept _ Hm1 Hu1 Hnd1).
    unfold bind, commit, sys_exit. reflexivity. }
  cbn. rewrite Hm1, Hs1, Hf1. done.
Qed.

(** X17, on a ledger with two records of which the first lost its file. *)
Lemma open_ledger_reindex_two_records :
  exists w',
    open_ledger false "reindex" "user@example.com" "GYB-GMail-Backup" world_m2_on_disk
      = Exit 0 w' /\
    messages (cur (sqlconn w')) = Some [("m2", "m2.eml", 1700000001%Q)] /\
    uids (cur (sqlconn w')) = Some [("m2", "m2")].
Proof.
  destruct (open_ledger_reindex "user@example.com" "user@example.com" "GYB-GMail-Backup"
              world_m2_on_disk
              [("email_address", "user@example.com"); ("db_version", "6")]
              [("m1", "m1.eml", 1700000000%Q); ("m2", "m2.eml", 1700000001%Q)]
              [("m1", "INBOX"); ("m2", "SENT"); ("m1", "UNREAD")]
              [("m1", "m1"); ("m2", "m2")]
              eq_refl eq_refl eq_refl eq_refl eq_refl eq_refl eq_refl
              ltac:(apply (bool_decide_unpack _); vm_compute; exact I))
    as (w' & Hrun & Hm & Hu & _).
  exists w'. split; [exact Hrun|]. split; [exact Hm|exact Hu].
Defined.

(** ** The checks of the arguments *)

(** X18. The checks of the arguments never end the process with status 0:
    a project action ends with status 1, like [split-mbox], a missing
    account and a restore with a search, so that the [sys.exit(0)] after
    each project action is never reached.  When the checks return, the
    account is there, a restore has the default search, the action is none
    of these four, and the backup folder is not the placeholder any more. *)
Theorem check_arguments_postcondition (o : options) (w : world) :
  match check_arguments o w with
  | Ok o' w' =>
      truthy (opt_email o') = true /\
      opt_action o' = opt_action o /\
      (opt_action o' ∉ ["split-mbox"; "create-project"; "delete-projects";
                         "check-service-account"]) /\
      (Py.mem (opt_action o') restore_actions = true -> opt_gmail_search o' = "-is:chat") /\
      opt_local_folder o' ≠ "XXXuse-email-addressXXX" /\
      sqlconn w' = sqlconn w /\ files w' = files w
  | Exit code _ => code = 1
  | Raise _ _ => False
  end.
Proof.
  unfold check_arguments, bind at 1.
  destruct (String.eqb_spec (opt_action o) "split-mbox") as [Hsplit|Hsplit]; [reflexivity|].
  unfold ret at 1. unfold bind at 1.
  destruct (truthy (opt_email o)) eqn:Hemail; [|reflexivity].
  cbn [negb]. unfold ret at 1. unfold bind at 1.
  destruct (Py.mem (opt_action o) restore_actions
            && negb (String.eqb (opt_gmail_search o) "-is:chat"))%bool eqn:Hsearch;
    [reflexivity|].
  unfold ret at 1.
  set (o' := if String.eqb (opt_local_folder o) "XXXuse-email-addressXXX" then _ else o).
  assert (Ha : opt_action o' = opt_action o).
  { unfold o'. by destruct (String.eqb _ "XXXuse-email-addressXXX"). }
  assert (He : opt_email o' = opt_email o).
  { unfold o'. by destruct (String.eqb _ "XXXuse-email-addressXXX"). }
  assert (Hq : opt_gmail_search o' = opt_gmail_search o).
  { unfold o'. by destruct (String.eqb _ "XXXuse-email-addressXXX"). }
  assert (Hf : opt_local_folder o' ≠ "XXXuse-email-addressXXX").
  { unfold o'. destruct (String.eqb_spec (opt_local_folder o) "XXXuse-email-addressXXX");
      [|done]. simpl. discriminate. }
  unfold bind at 1.
  destruct (String.eqb_spec (opt_action o') "create-project") as [Hc|Hc]; [reflexivity|].
  destruct (String.eqb_spec (opt_action o') "delete-projects") as [Hd|Hd]; [reflexivity|].
  destruct (String.eqb_spec (opt_action o') "check-service-account") as [Hk|Hk];
    [reflexivity|].
  unfold ret, bind. rewrite He, Hq, Ha.
  split; [done|]. split; [done|]. split.
  { rewrite Ha in Hc, Hd, Hk. rewrite !elem_of_cons, elem_of_nil. tauto. }
  split; [|done].
  intros Hres. rewrite Hres in Hsearch. simpl in Hsearch.
  apply negb_false_iff, String.eqb_eq in Hsearch. exact Hsearch.
Qed.

(** ** Sizes for the operator *)

Lemma round_half_even_bounds (q : Q) (a b : Z) :
  (inject_Z a <= q)%Q -> (q <= inject_Z b)%Q -> a <= round_half_even q <= b.
Proof.
  unfold Qle, inject_Z, round_half_even. simpl. destruct q as [n d]. simpl.
  intros Ha Hb.
  pose proof (Z.div_mod n (Zpos d) ltac:(lia)) as Hdm.
  pose proof (Z.mod_pos_bound n (Zpos d) ltac:(lia)) as Hr.
  assert (a <= n / Zpos d) as Hlow by (apply Z.div_le_lower_bound; lia).
  assert (n / Zpos d <= b) as Hup by (apply Z.div_le_upper_bound; lia).
  assert (0 < n mod Zpos d -> n / Zpos d + 1 <= b) as Hup' by nia.
  destruct (2 * (n mod Zpos d) <? Zpos d) eqn:H1; [lia|].
  apply Z.ltb_ge in H1.
  destruct (Zpos d <? 2 * (n mod Zpos d)) eqn:H2; [apply Z.ltb_lt in H2; lia|].
  destruct (Z.even (n / Zpos d)); lia.
Qed.

Lemma append_assoc (a b c : string) : (a +:+ b) +:+ c = a +:+ (b +:+ c).
Proof.
  induction a as [|x a IH]; [reflexivity|].
  change (String x ((a +:+ b) +:+ c) = String x (a +:+ (b +:+ c))). by f_equal.
Qed.

Lemma format_1f_tenths (m c : Z) :
  0 < c -> c <= m < 1024 * c ->
  exists t, format_1f (inject_Z m / inject_Z c) = pretty (t / 10) +:+ "." +:+ pretty (t mod 10)
            /\ 10 <= t <= 10240.
Proof.
  intros Hc Hm. exists (round_half_even (inject_Z m / inject_Z c * 10)).
  split; [reflexivity|].
  apply round_half_even_bounds; unfold Qle, Qmult, Qdiv, Qinv, inject_Z;
    destruct c as [|c|c]; try lia; simpl; lia.
Qed.

(** X19. [bytes_to_larger] has no answer for a size of [1024^5] bytes or
    more: it returns [None] there, and only there.  Below [1024] bytes,
    negative sizes included, it spells the number of bytes; from there on
    it shows the size in units of [1024^k] bytes with one decimal, which
    lies between [1.0] and [1024.0]: a size just under the next unit is
    shown as [1024.0] of the smaller one. *)
Theorem bytes_to_larger_range (myval : Z) :
  (bytes_to_larger myval = None <-> 1024 ^ 5 <= myval) /\
  (myval < 1024 -> bytes_to_larger myval = Some (pretty myval +:+ " bytes")) /\
  (1024 <= myval < 1024 ^ 5 ->
   exists t unit,
     bytes_to_larger myval =
       Some (pretty (t / 10) +:+ "." +:+ pretty (t mod 10) +:+ " " +:+ unit) /\
     10 <= t <= 10240 /\
     unit ∈ ["KB"; "MB"; "GB"; "TB"]).
Proof.
  unfold bytes_to_larger.
  destruct (Z.ltb_spec myval 1024) as [H1|H1].
  { split; [split; [done|lia]|]. split; [done|lia]. }
  destruct (Z.ltb_spec myval (1024 ^ 2)) as [H2|H2].
  { split; [split; [done|lia]|]. split; [lia|]. intros _.
    destruct (format_1f_tenths myval 1024) as (t & -> & Ht); [lia|lia|].
    exists t, "KB". split; [by rewrite !append_assoc|].
    split; [done|]. rewrite !elem_of_cons. tauto. }
  destruct (Z.ltb_spec myval (1024 ^ 3)) as [H3|H3].
  { split; [split; [done|lia]|]. split; [lia|]. intros _.
    destruct (format_1f_tenths myval (1024 ^ 2)) as (t & -> & Ht); [lia|lia|].
    exists t, "MB". split; [by rewrite !append_assoc|].
    split; [done|]. rewrite !elem_of_cons. tauto. }
  destruct (Z.ltb_spec myval (1024 ^ 4)) as [H4|H4].
  { split; [split; [done|lia]|]. split; [lia|]. intros _.
    destruct (format_1f_tenths myval (1024 ^ 3)) as (t & -> & Ht); [lia|lia|].
    exists t, "GB". split; [by rewrite !append_assoc|].
    split; [done|]. rewrite !elem_of_cons. tauto. }
  destruct (Z.ltb_spec myval (1024 ^ 5)) as [H5|H5].
  { split; [split; [done|lia]|]. split; [lia|]. intros _.
    destruct (format_1f_tenths myval (1024 ^ 4)) as (t & -> & Ht); [lia|lia|].
    exists t, "TB". split; [by rewrite !append_assoc|].
    split; [done|]. rewrite !elem_of_cons. tauto. }
  split; [done|]. split; lia.
Qed.
